(** * go-keycloak: the request / authentication pipeline of keycloak.go

    A shallow embedding of [Client.newRequest] and [Client.do] together with
    the parts of the Go standard library they lean on.  Go strings and byte
    slices are Rocq strings (sequences of 8-bit characters), nilable
    pointers and interfaces are options, and a call that would dereference
    nil ends in [Panics]. *)

From Stdlib Require Import ZArith Ascii String List DecimalString.
From Stdlib Require DecimalFacts DecimalPos.
From stdpp Require Import base option list strings gmap.

Set Warnings "-register-all".
Local Open Scope Z_scope.
Local Open Scope string_scope.

(** ** Constants of keycloak.go *)

Definition defaultAdminBase : string := "admin/realms".
Definition defaultBase : string := "realms".
Definition formEncoded : string := "application/x-www-form-urlencoded".
Definition passwordGrant : string := "password".
Definition clientGrant : string := "client_credentials".
Definition offlineScope : string := "offline_access".

(** ** Outcomes of a call: it returns, or it panics *)

Inductive outcome (A : Type) : Type :=
| Returns (a : A)
| Panics.
Arguments Returns {A} a.
Arguments Panics {A}.

#[global] Instance outcome_ret : MRet outcome := @Returns.
#[global] Instance outcome_bind : MBind outcome := λ A B k o,
  match o with
  | Returns a => k a
  | Panics => Panics
  end.

(** ** Error values of the libraries *)

Inductive liberr : Type :=
| io_EOF
| io_ErrUnexpectedEOF
| context_Canceled
| context_DeadlineExceeded
| json_SyntaxError
| json_UnmarshalTypeError
| json_UnsupportedTypeError
| json_MarshalerError
| errors_New (msg : string).

(** ** Requests, readers and responses *)

(** context.Context, observed at the moment the code selects on [Done()]:
    [ctx_Err] is what [ctx.Err()] returns, [None] while the context is live. *)
Record Context : Type := { ctx_Err : option liberr }.

Definition context_Background : Context := {| ctx_Err := None |}.

(** A parsed URL is kept in its [String()] form. *)
Definition URL : Type := string.

(** http.Request.  [Header.Set] stores one value per canonical key, so the
    header is a finite map from key to value. *)
Record Request : Type := {
  Method : string;
  req_URL : URL;
  Header : gmap string string;
  req_Body : option string;
  req_ctx : Context
}.

Definition WithContext (req : Request) (ctx : Context) : Request :=
  {| Method := Method req; req_URL := req_URL req; Header := Header req;
     req_Body := req_Body req; req_ctx := ctx |}.

Definition Header_Set (key value : string) (req : Request) : Request :=
  {| Method := Method req; req_URL := req_URL req;
     Header := <[key := value]> (Header req);
     req_Body := req_Body req; req_ctx := req_ctx req |}.

(** An io.Reader as the program meets it: the bytes it yields and how the
    stream ends, with io.EOF ([None]) or with a failure of its own. *)
Record Reader : Type := {
  rd_data : string;
  rd_fail : option string
}.

(** An io.Writer: what it has accepted so far, and the error its [Write]
    returns when it is broken. *)
Record Writer : Type := {
  wr_written : string;
  wr_fail : option string
}.

(** http.Response, projected on the fields the program reads.  [Request]
    is a pointer, which a transport may leave nil. *)
Record HttpResponse : Type := {
  StatusCode : Z;
  Body : Reader;
  resp_Request : option Request
}.

(** Response is the Keycloak response. *)
Record Response : Type := { Response_Response : HttpResponse }.

(** ErrorResponse returns the error response from Keycloak.  Its [Response]
    field is a pointer, hence an option. *)
Record ErrorResponse : Type := {
  ErrorResponse_Response : option HttpResponse;
  Message : string
}.

(** The Go [error] interface: a library error or an [*ErrorResponse]. *)
Inductive error : Type :=
| LibError (e : liberr)
| UpstreamError (r : ErrorResponse).

Definition reader_error (body : Reader) (at_eof : liberr) : error :=
  match rd_fail body with
  | Some msg => LibError (errors_New msg)
  | None => LibError at_eof
  end.

(** ioutil.ReadAll: the bytes read, and the reader's failure if any. *)
Definition ioutil_ReadAll (body : Reader) : string * option error :=
  (rd_data body,
   match rd_fail body with
   | Some msg => Some (LibError (errors_New msg))
   | None => None
   end).

(** io.Copy: bytes travel from the reader to the writer until either side
    fails.  Nothing is written when the reader yields no bytes. *)
Definition io_Copy (w : Writer) (body : Reader) : Writer * option error :=
  match rd_data body with
  | "" => (w, snd (ioutil_ReadAll body))
  | data =>
      match wr_fail w with
      | Some msg => (w, Some (LibError (errors_New msg)))
      | None =>
          ({| wr_written := wr_written w ++ data; wr_fail := None |},
           snd (ioutil_ReadAll body))
      end
  end.

(** ** JSON texts as encoding/json sees them *)

Inductive json : Type :=
| JNull
| JBool (b : bool)
| JNumber (literal : string)
| JString (s : string)
| JArray (items : list json)
| JObject (members : list (string * json)).

(** What the scanner makes of an input: a first top-level value and the
    bytes after it, a syntax error, or an input that ends too early. *)
Inductive scan_result : Type :=
| ScanValue (j : json) (rest : string)
| ScanError
| ScanEnd.

Definition isSpace (c : ascii) : bool :=
  match nat_of_ascii c with
  | 32%nat | 9%nat | 13%nat | 10%nat => true
  | _ => false
  end.

Fixpoint blank (s : string) : bool :=
  match s with
  | "" => true
  | String c s' => isSpace c && blank s'
  end.

Definition is_composite (j : json) : bool :=
  match j with
  | JArray _ | JObject _ => true
  | _ => false
  end.

(** ** Go values as encoding/json walks them *)

(** The value behind a request body of type [interface{}], seen through the
    encoder's reflection: structs and maps are lists of members in the
    order the encoder emits them.  A value whose type has a MarshalJSON
    method of its own is [VMarshaler]: it comes with the text the encoder
    has from that method once it has checked and compacted it, and with
    nothing when the method fails or returns what is not JSON.  A value
    with a MarshalText method is encoded as the string it returns, hence a
    [VString].  Floating-point numbers are not part of the model. *)
Inductive gvalue : Type :=
| VNil
| VBool (b : bool)
| VInt (n : Z)
| VString (s : string)
| VSlice (items : list gvalue)
| VStruct (fields : list (string * gvalue))
| VMarshaler (text : option string)
| VUnsupported.

Definition dquote : ascii := ascii_of_nat 34.
Definition backslash : ascii := ascii_of_nat 92.

Definition byte_in (lo hi : nat) (c : ascii) : bool :=
  (lo <=? nat_of_ascii c)%nat && (nat_of_ascii c <=? hi)%nat.

(** The three characters that [SetEscapeHTML] is about: [<], [>] and [&]. *)
Definition is_html (c : ascii) : bool :=
  match nat_of_ascii c with
  | 60%nat | 62%nat | 38%nat => true
  | _ => false
  end.

(** encoding/json's tables [safeSet] and [htmlSafeSet]. *)
Definition safeSet (c : ascii) : bool :=
  byte_in 32 127 c && negb (Ascii.eqb c dquote) && negb (Ascii.eqb c backslash).

Definition htmlSafeSet (c : ascii) : bool := safeSet c && negb (is_html c).

Definition hex (n : nat) : ascii :=
  match String.get n "0123456789abcdef" with
  | Some c => c
  | None => "0"%char
  end.

(** One byte below [utf8.RuneSelf] in [appendString].  The short forms for
    backspace and form feed are those of Go 1.22 and later. *)
Definition escape_byte (escapeHTML : bool) (b : ascii) : string :=
  if htmlSafeSet b || (negb escapeHTML && safeSet b) then String b ""
  else
    match nat_of_ascii b with
    | 92%nat | 34%nat => String backslash (String b "")
    | 8%nat => "\b"
    | 12%nat => "\f"
    | 10%nat => "\n"
    | 13%nat => "\r"
    | 9%nat => "\t"
    | n => "\u00" ++ String (hex (n / 16)) (String (hex (n mod 16)) "")
    end.

(** unicode/utf8: length of the encoding announced by a first byte (0 for a
    byte that cannot start one) and the range accepted for the second. *)
Definition rune_size (b : ascii) : nat :=
  if byte_in 194 223 b then 2
  else if byte_in 224 239 b then 3
  else if byte_in 240 244 b then 4
  else 0.

Definition continuation (c : ascii) : bool := byte_in 128 191 c.

Definition second_ok (b c1 : ascii) : bool :=
  if (nat_of_ascii b =? 224)%nat then byte_in 160 191 c1
  else if (nat_of_ascii b =? 237)%nat then byte_in 128 159 c1
  else if (nat_of_ascii b =? 240)%nat then byte_in 144 191 c1
  else if (nat_of_ascii b =? 244)%nat then byte_in 128 143 c1
  else continuation c1.

(** U+2028 and U+2029 are E2 80 A8 and E2 80 A9. *)
Definition is_line_separator (b c1 c2 : ascii) : bool :=
  (nat_of_ascii b =? 226)%nat && (nat_of_ascii c1 =? 128)%nat
  && byte_in 168 169 c2.

Definition replacement : string := "\ufffd".

(** The loop of [appendString] over the bytes of [src]. *)
Fixpoint encode_bytes (escapeHTML : bool) (src : string) : string :=
  match src with
  | "" => ""
  | String b r1 =>
      if (nat_of_ascii b <? 128)%nat
      then escape_byte escapeHTML b ++ encode_bytes escapeHTML r1
      else
        match rune_size b, r1 with
        | 2%nat, String c1 r2 =>
            if second_ok b c1
            then String b (String c1 (encode_bytes escapeHTML r2))
            else replacement ++ encode_bytes escapeHTML r1
        | 3%nat, String c1 (String c2 r3) =>
            if second_ok b c1 && continuation c2
            then
              if is_line_separator b c1 c2
              then "\u202" ++ String (hex (nat_of_ascii c2 mod 16))
                                     (encode_bytes escapeHTML r3)
              else String b (String c1 (String c2 (encode_bytes escapeHTML r3)))
            else replacement ++ encode_bytes escapeHTML r1
        | 4%nat, String c1 (String c2 (String c3 r4)) =>
            if second_ok b c1 && continuation c2 && continuation c3
            then String b (String c1 (String c2 (String c3
                   (encode_bytes escapeHTML r4))))
            else replacement ++ encode_bytes escapeHTML r1
        | _, _ => replacement ++ encode_bytes escapeHTML r1
        end
  end.

Definition encode_string (escapeHTML : bool) (s : string) : string :=
  String dquote (encode_bytes escapeHTML s ++ String dquote "").

Definition decimal (n : Z) : string := NilZero.string_of_int (Z.to_int n).

(** The escaping half of [appendCompact], which copies the text of a
    MarshalJSON method: with [escapeHTML] on, [<], [>], [&], U+2028 and
    U+2029 are escaped; with it off the text is copied byte for byte. *)
Fixpoint compact_escape (src : string) : string :=
  match src with
  | "" => ""
  | String b r1 =>
      if is_html b
      then "\u00" ++ String (hex (nat_of_ascii b / 16))
                        (String (hex (nat_of_ascii b mod 16))
                           (compact_escape r1))
      else
        match r1 with
        | String c1 (String c2 r3) =>
            if is_line_separator b c1 c2
            then "\u202" ++ String (hex (nat_of_ascii c2 mod 16))
                                   (compact_escape r3)
            else String b (compact_escape r1)
        | _ => String b (compact_escape r1)
        end
  end.

(** The encoder proper; [None] stands for the error it ends with, which
    [encode_failure] names. *)
Fixpoint encode_value (escapeHTML : bool) (v : gvalue) : option string :=
  match v with
  | VNil => Some "null"
  | VBool b => Some (if b then "true" else "false")
  | VInt n => Some (decimal n)
  | VString s => Some (encode_string escapeHTML s)
  | VSlice items =>
      parts ← mapM (encode_value escapeHTML) items;
      Some ("[" ++ String.concat "," parts ++ "]")
  | VStruct fields =>
      parts ← mapM (λ kv, let '(k, x) := kv in
                          out ← encode_value escapeHTML x;
                          Some (encode_string escapeHTML k ++ ":" ++ out))
                   fields;
      Some ("{" ++ String.concat "," parts ++ "}")
  | VMarshaler text =>
      if escapeHTML then compact_escape <$> text else text
  | VUnsupported => None
  end.

(** The error of the first value the encoder cannot write: an
    UnsupportedTypeError, or the MarshalerError around the failure of a
    MarshalJSON method. *)
Fixpoint encode_failure (v : gvalue) : option liberr :=
  match v with
  | VSlice items =>
      (fix first (l : list gvalue) : option liberr :=
         match l with
         | [] => None
         | x :: l' =>
             match encode_failure x with
             | Some e => Some e
             | None => first l'
             end
         end) items
  | VStruct fields =>
      (fix first (l : list (string * gvalue)) : option liberr :=
         match l with
         | [] => None
         | (_, x) :: l' =>
             match encode_failure x with
             | Some e => Some e
             | None => first l'
             end
         end) fields
  | VMarshaler None => Some json_MarshalerError
  | VUnsupported => Some json_UnsupportedTypeError
  | _ => None
  end.

(** The occurrences of [<], [>] and [&] in a text, in order, and those in
    the strings and member names of a value, in the order of encoding. *)
Fixpoint keep_html (s : string) : string :=
  match s with
  | "" => ""
  | String c r => if is_html c then String c (keep_html r) else keep_html r
  end.

Fixpoint html_of_value (v : gvalue) : string :=
  match v with
  | VString s => keep_html s
  | VSlice items => String.concat "" (map html_of_value items)
  | VStruct fields =>
      String.concat ""
        (map (λ kv, let '(k, x) := kv in keep_html k ++ html_of_value x)
           fields)
  | VMarshaler (Some text) => keep_html text
  | _ => ""
  end.

Definition newline : string := String (ascii_of_nat 10) "".

(** json.NewEncoder(buf) with SetEscapeHTML(escapeHTML), then Encode(v):
    the buffer receives the encoding followed by a newline. *)
Definition Encoder_Encode (escapeHTML : bool) (v : gvalue) : string + error :=
  match encode_value escapeHTML v with
  | Some out => inl (out ++ newline)
  | None =>
      inr (LibError (default json_UnsupportedTypeError (encode_failure v)))
  end.

(** net/http's validMethod: a non-empty string of token characters. *)
Definition isTokenChar (c : ascii) : bool :=
  byte_in 48 57 c || byte_in 65 90 c || byte_in 97 122 c
  || match nat_of_ascii c with
     | 33%nat | 35%nat | 36%nat | 37%nat | 38%nat | 39%nat | 42%nat | 43%nat
     | 45%nat | 46%nat | 94%nat | 95%nat | 96%nat | 124%nat | 126%nat => true
     | _ => false
     end.

Fixpoint all_token (s : string) : bool :=
  match s with
  | "" => true
  | String c s' => isTokenChar c && all_token s'
  end.

Definition validMethod (method : string) : bool :=
  negb (String.eqb method "") && all_token method.

(** ** The libraries the program is linked against

    Functions of net/url, net/http, encoding/json and go-querystring whose
    code is not part of the program are taken as they come. *)
Class GoLib : Type := {
  (** encoding/json's scanner on the start of an input *)
  json_scan : string → scan_result;
  (** encoding/json's case folding of member names *)
  json_foldName : string → string;
  (** encoding/json storing a value other than null through a field of
      type [*http.Response]: what the field holds afterwards, and the
      error of an UnmarshalJSON or UnmarshalText method met on the way
      (those of time.Time, big.Int or net.IP under [TLS], for one), on
      which encoding/json gives the whole input up *)
  json_store_Response :
    json → option HttpResponse → option HttpResponse * option error;
  (** url.Parse *)
  url_Parse : string → URL + error;
  (** ResolveReference of net/url, whose receiver may be nil *)
  url_ResolveReference : option URL → URL → outcome URL;
  (** query.Values(body) followed by Encode() *)
  query_Values : gvalue → string + error;
  (** http.DefaultClient.Do *)
  http_DefaultClient : Request → option HttpResponse * option error
}.

(** A type that encoding/json can decode into: what storing a JSON value
    does to the current value, and the error reported. *)
Class Unmarshal (T : Type) : Type :=
  json_store : json → T → T * option error.

(** ** The program's own types *)

(** Modelled from the spec: type OIDCToken is declared in another file of
    the package; the data model gives it as [{AccessToken, ...}]. *)
Record OIDCToken : Type := { AccessToken : string }.

(** Modelled from the spec: type AccessGrantRequest is declared in another
    file of the package; the data model gives it as the value object
    [{GrantType, Scope, Username, Password}]. *)
Record AccessGrantRequest : Type := {
  GrantType : string;
  Scope : string;
  Username : string;
  Password : string
}.

Record headers : Type := {
  authorization : string;
  contentType : string
}.

(** Client manages communication to Keycloak.  [httpClient] is the
    [Do] method of the configured [*http.Client]; the three service
    handles are views of the client itself and carry no data. *)
Record Client : Type := {
  httpClient : Request → option HttpResponse * option error;
  baseURL : option URL;
  realm : string;
  hasOfflineAccess : bool;
  isServiceAccount : bool;
  isConfidential : bool;
  clientID : string;
  clientSecret : string;
  adminAccount : string;
  adminPass : string;
  adminOIDC : option OIDCToken
}.

(** The same client with another token in the [adminOIDC] slot. *)
Definition with_adminOIDC (t : option OIDCToken) (c : Client) : Client :=
  {| httpClient := httpClient c; baseURL := baseURL c; realm := realm c;
     hasOfflineAccess := hasOfflineAccess c;
     isServiceAccount := isServiceAccount c;
     isConfidential := isConfidential c;
     clientID := clientID c; clientSecret := clientSecret c;
     adminAccount := adminAccount c; adminPass := adminPass c;
     adminOIDC := t |}.

(** The decode target [v interface{}] of [do]: nil, a value that
    implements io.Writer, or a value of some type [T] to decode into. *)
Inductive target (T : Type) : Type :=
| target_nil
| target_Writer (w : Writer)
| target_value (x : T).
Arguments target_nil {T}.
Arguments target_Writer {T} w.
Arguments target_value {T} x.

(** What a call of [newRequest] does: the grant requests it hands to the
    token acquirer, in order, and how it ends. *)
Record NewRequestRun : Type := {
  nr_grants : list AccessGrantRequest;
  nr_outcome : outcome (option Request * option error)
}.

(** The token acquirer as [newRequest] calls it. *)
Definition Acquirer : Type :=
  Client → Context → AccessGrantRequest →
  outcome (option OIDCToken * option error).

(** ErrorResponse.Error.  It goes through two pointers, [r.Response] and
    [r.Response.Request]. *)
Definition ErrorResponse_Error (r : ErrorResponse) : outcome string :=
  match ErrorResponse_Response r with
  | None => Panics
  | Some resp =>
      match resp_Request resp with
      | None => Panics
      | Some request =>
          Returns (Method request ++ " " ++ req_URL request
                   ++ ": " ++ decimal (StatusCode resp) ++ " " ++ Message r)
      end
  end.

(** The fields of ErrorResponse that encoding/json can address: the
    exported field [Response], under its own name, and [Message], under
    the name of its tag. *)
Inductive ErrorResponse_field : Type := field_Response | field_Message.

Section Program.
Context `{GoLib}.

(** ** Reading JSON *)

(** json.Unmarshal starts with checkValid: the whole input must be one
    value, surrounded by white space only. *)
Definition checkValid (data : string) : option json :=
  if blank data then None
  else
    match json_scan data with
    | ScanValue j rest => if blank rest then Some j else None
    | _ => None
    end.

(** Member lookup in a struct: by exact name first, by folded name next. *)
Definition field_of_key (key : string) : option ErrorResponse_field :=
  if String.eqb key "Response" then Some field_Response
  else if String.eqb key "error_description" then Some field_Message
  else if String.eqb (json_foldName key) (json_foldName "Response")
       then Some field_Response
  else if String.eqb (json_foldName key) (json_foldName "error_description")
       then Some field_Message
  else None.

(** One member of a JSON object stored into an ErrorResponse.  null clears
    a pointer and leaves a string alone; a value of the wrong type leaves
    the field alone.  The error, if any, is one that stops the decoding. *)
Definition store_member (e : ErrorResponse) (kv : string * json)
  : ErrorResponse * option error :=
  match field_of_key (fst kv), snd kv with
  | Some field_Response, JNull =>
      ({| ErrorResponse_Response := None; Message := Message e |}, None)
  | Some field_Response, j =>
      let '(r, err) := json_store_Response j (ErrorResponse_Response e) in
      ({| ErrorResponse_Response := r; Message := Message e |}, err)
  | Some field_Message, JString s =>
      ({| ErrorResponse_Response := ErrorResponse_Response e; Message := s |},
       None)
  | _, _ => (e, None)
  end.

(** The members of an object stored one after the other, up to the first
    that stops the decoding: the members after it are not looked at. *)
Fixpoint store_members (members : list (string * json)) (e : ErrorResponse)
  : ErrorResponse :=
  match members with
  | [] => e
  | kv :: members =>
      match store_member e kv with
      | (e, Some _) => e
      | (e, None) => store_members members e
      end
  end.

(** The message the members of an object leave behind: the last string
    stored under [error_description]. *)
Definition last_message (members : list (string * json)) (m : string)
  : string :=
  fold_left
    (λ m kv, match field_of_key (fst kv), snd kv with
             | Some field_Message, JString s => s
             | _, _ => m
             end) members m.

(** json.Unmarshal(data, errorResponse), as far as the program can tell:
    the error it returns is dropped by its only caller. *)
Definition json_Unmarshal_ErrorResponse (data : string) (e : ErrorResponse)
  : ErrorResponse :=
  match checkValid data with
  | Some (JObject members) => store_members members e
  | _ => e
  end.

(** json.NewDecoder(body).Decode(v).  An input of white space only ends
    in io.EOF, or in the reader's own failure; the first value is decoded
    and what follows it is left unread.  A value that is not closed by a
    bracket is complete only once the byte after it, or the end of the
    stream, has been seen. *)
Definition Decoder_Decode {T} `{Unmarshal T} (body : Reader) (x : T)
  : T * option error :=
  if blank (rd_data body) then (x, Some (reader_error body io_EOF))
  else
    match json_scan (rd_data body) with
    | ScanError => (x, Some (LibError json_SyntaxError))
    | ScanEnd => (x, Some (reader_error body io_ErrUnexpectedEOF))
    | ScanValue j rest =>
        match rest, rd_fail body, is_composite j with
        | "", Some msg, false => (x, Some (LibError (errors_New msg)))
        | _, _, _ => json_store j x
        end
    end.

(** ** Executor *)

(** do sends a keycloak request and returns the response.  The result is
    the pair the Go function returns, with the target as the call leaves
    it. *)
Definition do {T} `{Unmarshal T} (c : Client) (ctx : Context) (req : Request)
    (v : target T)
  : outcome (option Response * option error * target T) :=
  let req := WithContext req ctx in
  let '(resp, err) := httpClient c req in
  match (match err with Some _ => ctx_Err ctx | None => None end) with
  | Some ctxErr => Returns (None, Some (LibError ctxErr), v)
  | None =>
      (* defer resp.Body.Close() *)
      match resp with
      | None => Panics
      | Some resp =>
          let response := {| Response_Response := resp |} in
          if (StatusCode resp >=? 300)%Z then
            let errorResponse :=
              {| ErrorResponse_Response := Some resp; Message := "" |} in
            let '(data, rerr) := ioutil_ReadAll (Body resp) in
            let errorResponse :=
              match rerr with
              | None => json_Unmarshal_ErrorResponse data errorResponse
              | Some _ => errorResponse
              end in
            Returns (None, Some (UpstreamError errorResponse), v)
          else
            match v with
            | target_nil => Returns (Some response, err, v)
            | target_Writer w =>
                let '(w, _) := io_Copy w (Body resp) in
                Returns (Some response, err, target_Writer w)
            | target_value x =>
                let '(x, decErr) := Decoder_Decode (Body resp) x in
                let decErr :=
                  match decErr with
                  | Some (LibError io_EOF) => None
                  | _ => decErr
                  end in
                let err :=
                  match decErr with
                  | Some _ => decErr
                  | None => err
                  end in
                Returns (Some response, err, target_value x)
            end
      end
  end.

(** ** Request Builder *)

(** (c.baseURL).Parse(path): parse the reference, then resolve it against
    the base. *)
Definition URL_Parse (base : option URL) (ref : string)
  : outcome (URL + error) :=
  match url_Parse ref with
  | inr err => Returns (inr err)
  | inl refURL =>
      match url_ResolveReference base refURL with
      | Panics => Panics
      | Returns u => Returns (inl u)
      end
  end.

(** http.NewRequest with the background context: the pair it returns. *)
Definition http_NewRequest (method : string) (url : string)
    (body : option string) : option Request * option error :=
  let method := if String.eqb method "" then "GET" else method in
  if negb (validMethod method)
  then (None, Some (LibError (errors_New "net/http: invalid method")))
  else
    match url_Parse url with
    | inr err => (None, Some err)
    | inl u =>
        (Some {| Method := method; req_URL := u; Header := ∅;
                 req_Body := body; req_ctx := context_Background |},
         None)
    end.

(** req.Header.Set(key, value) through the pointer [req]. *)
Definition Request_Header_Set (key value : string) (req : option Request)
  : outcome (option Request) :=
  match req with
  | None => Panics
  | Some r => Returns (Some (Header_Set key value r))
  end.

Section RequestBuilder.
Variable GetOIDCToken : Acquirer.

Definition returned (grants : list AccessGrantRequest)
    (req : option Request) (err : option error) : NewRequestRun :=
  {| nr_grants := grants; nr_outcome := Returns (req, err) |}.

Definition panicked (grants : list AccessGrantRequest) : NewRequestRun :=
  {| nr_grants := grants; nr_outcome := Panics |}.

(** Lines 243 to 286 of keycloak.go: the headers, then the admin token. *)
Definition newRequest_headers (c : Client) (body : option gvalue) (h : headers)
    (isAdminRequest : bool) (req : option Request) : NewRequestRun :=
  match
    req ← (if negb (String.eqb (contentType h) "")
           then Request_Header_Set "Content-Type" (contentType h) req
           else Returns req);
    req ← (if bool_decide (body ≠ None) && String.eqb (contentType h) ""
           then Request_Header_Set "Content-Type" "application/json" req
           else Returns req);
    if negb (String.eqb (authorization h) "")
    then Request_Header_Set "Authorization" (authorization h) req
    else Returns req
  with
  | Panics => panicked []
  | Returns req =>
      if isAdminRequest then
        let adminGrant :=
          {| GrantType := ""; Scope := ""; Username := ""; Password := "" |} in
        let adminGrant :=
          if hasOfflineAccess c
          then {| GrantType := GrantType adminGrant; Scope := offlineScope;
                  Username := Username adminGrant;
                  Password := Password adminGrant |}
          else adminGrant in
        let adminGrant :=
          if isConfidential c && isServiceAccount c
          then {| GrantType := clientGrant; Scope := Scope adminGrant;
                  Username := Username adminGrant;
                  Password := Password adminGrant |}
          else {| GrantType := passwordGrant; Scope := Scope adminGrant;
                  Username := adminAccount c; Password := adminPass c |} in
        match GetOIDCToken c context_Background adminGrant with
        | Panics => panicked [adminGrant]
        | Returns (token, err) =>
            match err with
            | Some err => returned [adminGrant] None (Some err)
            | None =>
                match token with
                | None => panicked [adminGrant]
                | Some token =>
                    match
                      Request_Header_Set "Authorization"
                        ("Bearer " ++ AccessToken token) req
                    with
                    | Panics => panicked [adminGrant]
                    | Returns req => returned [adminGrant] req None
                    end
                end
            end
        end
      else returned [] req None
  end.

(** newRequest creates the keycloak request with a relative URL provided.
    In the two branches with a body, [err] is a variable of the branch:
    the error of http.NewRequest is assigned to it and is out of scope at
    the check that follows the branches, which sees the nil [err] of the
    URL resolution.  Only the branch without a body assigns to that
    one. *)
Definition newRequest (c : Client) (method path : string)
    (body : option gvalue) (h : headers) (isAdminRequest : bool)
  : NewRequestRun :=
  match URL_Parse (baseURL c) path with
  | Panics => panicked []
  | Returns (inr err) => returned [] None (Some err)
  | Returns (inl u) =>
      match body with
      | Some b =>
          if String.eqb (contentType h) formEncoded then
            match query_Values b with
            | inr err => returned [] None (Some err)
            | inl form =>
                let '(req, _) := http_NewRequest method u (Some form) in
                newRequest_headers c body h isAdminRequest req
            end
          else
            match Encoder_Encode false b with
            | inr err => returned [] None (Some err)
            | inl buf =>
                let '(req, _) := http_NewRequest method u (Some buf) in
                newRequest_headers c body h isAdminRequest req
            end
      | None =>
          let '(req, err) := http_NewRequest method u None in
          match err with
          | Some err => returned [] None (Some err)
          | None => newRequest_headers c body h isAdminRequest req
          end
      end
  end.

End RequestBuilder.

(** ** Client Configuration *)

(** newClient returns a new Keycloak consumer. If no httpClient is provided
    the default httpClient will be used. *)
Definition newClient
    (httpClient : option (Request → option HttpResponse * option error))
    (baseURL realm : string)
    (hasOfflineAccess isServiceAccount isConfidential : bool)
    (clientID clientSecret adminAccount adminPass : string) : Client :=
  let httpClient :=
    match httpClient with
    | None => http_DefaultClient
    | Some d => d
    end in
  let base :=
    match url_Parse baseURL with
    | inl u => Some u
    | inr _ => None
    end in
  {| httpClient := httpClient; baseURL := base; realm := realm;
     hasOfflineAccess := hasOfflineAccess;
     isServiceAccount := isServiceAccount;
     isConfidential := isConfidential;
     clientID := clientID; clientSecret := clientSecret;
     adminAccount := adminAccount; adminPass := adminPass;
     adminOIDC := Some {| AccessToken := "" |} |}.

(** NewServiceAccount is targeted at Service Accounts with elevated
    privileges. *)
Definition NewServiceAccount httpClient (baseURL realm : string)
    (hasOfflineAccess : bool) (clientID clientSecret : string) : Client :=
  newClient httpClient baseURL realm hasOfflineAccess true true
            clientID clientSecret "" "".

(** NewConfidentialAdmin is targeted at users with elevated privileges who
    will be using a confidential client to authenticate against. *)
Definition NewConfidentialAdmin httpClient (baseURL realm : string)
    (hasOfflineAccess : bool) (clientID clientSecret : string)
    (adminAccount adminPass : string) : Client :=
  newClient httpClient baseURL realm hasOfflineAccess false true
            clientID clientSecret adminAccount adminPass.

(** NewPublicAdmin is targeted at users with elevated privileges who will
    be using a public client to authenticate against. *)
Definition NewPublicAdmin httpClient (baseURL realm : string)
    (hasOfflineAccess : bool) (clientID : string)
    (adminAccount adminPass : string) : Client :=
  newClient httpClient baseURL realm hasOfflineAccess false false
            clientID "" adminAccount adminPass.

(** BaseURL returns the baseURL value.  It calls [String] through the
    pointer [c.baseURL], which is nil when the base URL did not parse. *)
Definition BaseURL (c : Client) : outcome string :=
  match baseURL c with
  | None => Panics
  | Some u => Returns u
  end.

(** Realm returns the realm value *)
Definition Realm (c : Client) : string := realm c.

(** ClientID returns the clientID value *)
Definition ClientID (c : Client) : string := clientID c.

(** ClientSecret returns the clientSecret value *)
Definition ClientSecret (c : Client) : string := clientSecret c.

(** AdminAccount returns the adminAccount value *)
Definition AdminAccount (c : Client) : string := adminAccount c.

(** AdminPass returns the adminPass value *)
Definition AdminPass (c : Client) : string := adminPass c.

(** AdminOIDC returns the admin access token *)
Definition AdminOIDC (c : Client) : option OIDCToken := adminOIDC c.

(** ** Token Acquirer *)

Section TokenAcquirer.
(** The method and the realm-relative path of the token endpoint, and the
    decoding of its answer, are fixed in another file of the package. *)
Variable token_method : string.
Variable token_endpoint : string.
Context `{Unmarshal OIDCToken}.

(** Modelled from the spec: the fields of the token endpoint request,
    [grant_type], [scope] (only if offline access is requested),
    [username] and [password] (only in password-grant mode). *)
Definition grant_fields (g : AccessGrantRequest) : gvalue :=
  VStruct
    (List.filter
       (λ kv, match snd kv with VString "" => false | _ => true end)
       [("grant_type", VString (GrantType g)); ("scope", VString (Scope g));
        ("username", VString (Username g));
        ("password", VString (Password g))]).

(** Modelled from the spec: AuthenticationService.GetOIDCToken is declared
    in another file of the package.  The assembled grant request is
    submitted as a non-admin, form-encoded request through the Request
    Builder/Executor pair; the recursion bottoms out because this inner
    call always has [isAdminRequest = false]; it fails with whatever error
    the Executor reports, in a single attempt. *)
Definition GetOIDCToken : Acquirer := λ c ctx grantReq,
  let run :=
    newRequest (λ _ _ _, Panics) c token_method
      (defaultBase ++ "/" ++ realm c ++ "/" ++ token_endpoint)
      (Some (grant_fields grantReq))
      {| authorization := ""; contentType := formEncoded |} false in
  match nr_outcome run with
  | Panics => Panics
  | Returns (_, Some err) => Returns (None, Some err)
  | Returns (None, None) => Panics
  | Returns (Some req, None) =>
      match do c ctx req (target_value {| AccessToken := "" |}) with
      | Panics => Panics
      | Returns (_, Some err, _) => Returns (None, Some err)
      | Returns (_, None, target_value token) => Returns (Some token, None)
      | Returns (_, None, _) => Panics
      end
  end.

End TokenAcquirer.

End Program.

(** ** A reference scanner

    A scanner for JSON texts after encoding/json's [scanner] and [unquote],
    to run the program on concrete bodies.  The statements below hold for
    every [GoLib]; this one makes the examples computable. *)

Inductive step (A : Type) : Type :=
| Got (a : A) (rest : string)
| Bad
| More.
Arguments Got {A} a rest.
Arguments Bad {A}.
Arguments More {A}.

Fixpoint skip_space (s : string) : string :=
  match s with
  | String c r => if isSpace c then skip_space r else s
  | "" => ""
  end.

Fixpoint scan_word (w s : string) : step unit :=
  match w with
  | "" => Got tt s
  | String a w' =>
      match s with
      | "" => More
      | String b s' => if Ascii.eqb a b then scan_word w' s' else Bad
      end
  end.

Definition is_digit (c : ascii) : bool := byte_in 48 57 c.

Fixpoint take_digits (s : string) : string * string :=
  match s with
  | String c r =>
      if is_digit c
      then let '(ds, rest) := take_digits r in (String c ds, rest)
      else ("", s)
  | "" => ("", "")
  end.

(** At least one digit, as after a sign, a point or an exponent mark. *)
Definition scan_digits1 (s : string) : step string :=
  match s with
  | "" => More
  | String c _ =>
      if is_digit c then let '(ds, rest) := take_digits s in Got ds rest
      else Bad
  end.

Definition scan_exponent (lit s : string) : step string :=
  match s with
  | String c r =>
      if Ascii.eqb c "e" || Ascii.eqb c "E" then
        let '(sign, r') :=
          match r with
          | String d r'' =>
              if Ascii.eqb d "+" || Ascii.eqb d "-"
              then (String d "", r'') else ("", r)
          | "" => ("", r)
          end in
        match scan_digits1 r' with
        | Got ds rest => Got (lit ++ String c sign ++ ds) rest
        | Bad => Bad
        | More => More
        end
      else Got lit s
  | "" => Got lit s
  end.

Definition scan_fraction (lit s : string) : step string :=
  match s with
  | String c r =>
      if Ascii.eqb c "." then
        match scan_digits1 r with
        | Got ds rest => scan_exponent (lit ++ String c ds) rest
        | Bad => Bad
        | More => More
        end
      else scan_exponent lit s
  | "" => Got lit s
  end.

Definition scan_number (s : string) : step string :=
  let '(sign, s) :=
    match s with
    | String c r => if Ascii.eqb c "-" then ("-", r) else ("", s)
    | "" => ("", s)
    end in
  match s with
  | "" => More
  | String c r =>
      if Ascii.eqb c "0" then scan_fraction (sign ++ "0") r
      else if is_digit c then
        let '(ds, rest) := take_digits s in scan_fraction (sign ++ ds) rest
      else Bad
  end.

Definition hexval (c : ascii) : option N :=
  let n := N_of_ascii c in
  if byte_in 48 57 c then Some (n - 48)%N
  else if byte_in 97 102 c then Some (n - 87)%N
  else if byte_in 65 70 c then Some (n - 55)%N
  else None.

Definition getu4 (a b c d : ascii) : option N :=
  x1 ← hexval a; x2 ← hexval b; x3 ← hexval c; x4 ← hexval d;
  Some (((x1 * 16 + x2) * 16 + x3) * 16 + x4)%N.

Fixpoint all_hex (s : string) : bool :=
  match s with
  | "" => true
  | String c r => bool_decide (hexval c ≠ None) && all_hex r
  end.

(** utf8.EncodeRune *)
Definition utf8_EncodeRune (r : N) : string :=
  let byte (n : N) := String (ascii_of_N n) "" in
  (if r <? 128 then byte r
   else if r <? 2048 then byte (192 + r / 64) ++ byte (128 + r mod 64)
   else if r <? 65536 then
     byte (224 + r / 4096) ++ byte (128 + (r / 64) mod 64)
     ++ byte (128 + r mod 64)
   else
     byte (240 + r / 262144) ++ byte (128 + (r / 4096) mod 64)
     ++ byte (128 + (r / 64) mod 64) ++ byte (128 + r mod 64))%N.

Definition ReplacementChar : N := 65533.

Definition is_surrogate (r : N) : bool := ((55296 <=? r) && (r <? 57344))%N.

(** utf16.DecodeRune *)
Definition utf16_DecodeRune (r1 r2 : N) : N :=
  (if (55296 <=? r1) && (r1 <? 56320) && (56320 <=? r2) && (r2 <? 57344)
   then (r1 - 55296) * 1024 + (r2 - 56320) + 65536
   else ReplacementChar)%N.

Definition simple_escape (e : ascii) : option ascii :=
  match nat_of_ascii e with
  | 34%nat | 92%nat | 47%nat => Some e
  | 98%nat => Some (ascii_of_nat 8)
  | 102%nat => Some (ascii_of_nat 12)
  | 110%nat => Some (ascii_of_nat 10)
  | 114%nat => Some (ascii_of_nat 13)
  | 116%nat => Some (ascii_of_nat 9)
  | _ => None
  end.

(** The inside of a string literal, after its opening quote; [acc] is the
    text unquoted so far. *)
Fixpoint scan_chars (s acc : string) : step string :=
  match s with
  | "" => More
  | String c r1 =>
      if Ascii.eqb c dquote then Got acc r1
      else if Ascii.eqb c backslash then
        match r1 with
        | "" => More
        | String e r2 =>
            match simple_escape e with
            | Some x => scan_chars r2 (acc ++ String x "")
            | None =>
                if Ascii.eqb e "u" then
                  match r2 with
                  | String h1 (String h2 (String h3 (String h4 r6))) =>
                      match getu4 h1 h2 h3 h4 with
                      | None => Bad
                      | Some rr =>
                          if is_surrogate rr then
                            match r6 with
                            | String b1 (String b2 (String g1 (String g2
                                (String g3 (String g4 r12))))) =>
                                match
                                  (if Ascii.eqb b1 backslash && Ascii.eqb b2 "u"
                                   then getu4 g1 g2 g3 g4 else None)
                                with
                                | Some rr1 =>
                                    if (utf16_DecodeRune rr rr1 =? ReplacementChar)%N
                                    then scan_chars r6
                                           (acc ++ utf8_EncodeRune ReplacementChar)
                                    else scan_chars r12
                                           (acc ++ utf8_EncodeRune
                                                     (utf16_DecodeRune rr rr1))
                                | None =>
                                    scan_chars r6
                                      (acc ++ utf8_EncodeRune ReplacementChar)
                                end
                            | _ =>
                                scan_chars r6
                                  (acc ++ utf8_EncodeRune ReplacementChar)
                            end
                          else scan_chars r6 (acc ++ utf8_EncodeRune rr)
                      end
                  | _ => if all_hex r2 then More else Bad
                  end
                else Bad
            end
        end
      else if (nat_of_ascii c <? 32)%nat then Bad
      else if (nat_of_ascii c <? 128)%nat
      then scan_chars r1 (acc ++ String c "")
      else
        match rune_size c, r1 with
        | 2%nat, String c1 r2 =>
            if second_ok c c1
            then scan_chars r2 (acc ++ String c (String c1 ""))
            else scan_chars r1 (acc ++ utf8_EncodeRune ReplacementChar)
        | 3%nat, String c1 (String c2 r3) =>
            if second_ok c c1 && continuation c2
            then scan_chars r3 (acc ++ String c (String c1 (String c2 "")))
            else scan_chars r1 (acc ++ utf8_EncodeRune ReplacementChar)
        | 4%nat, String c1 (String c2 (String c3 r4)) =>
            if second_ok c c1 && continuation c2 && continuation c3
            then scan_chars r4
                   (acc ++ String c (String c1 (String c2 (String c3 ""))))
            else scan_chars r1 (acc ++ utf8_EncodeRune ReplacementChar)
        | _, _ => scan_chars r1 (acc ++ utf8_EncodeRune ReplacementChar)
        end
  end.

(** Values, the elements of an array after its first, and the members of
    an object; [fuel] bounds their mutual calls. *)
Fixpoint scan_value (fuel : nat) (s : string) : step json :=
  match fuel with
  | O => Bad
  | S fuel =>
      match skip_space s with
      | "" => More
      | String c r =>
          if Ascii.eqb c "{" then
            match skip_space r with
            | "" => More
            | String d r' =>
                if Ascii.eqb d "}" then Got (JObject []) r'
                else scan_members fuel (String d r') []
            end
          else if Ascii.eqb c "[" then
            match skip_space r with
            | "" => More
            | String d r' =>
                if Ascii.eqb d "]" then Got (JArray []) r'
                else scan_elements fuel (String d r') []
            end
          else if Ascii.eqb c dquote then
            match scan_chars r "" with
            | Got str rest => Got (JString str) rest
            | Bad => Bad
            | More => More
            end
          else if Ascii.eqb c "t" then
            match scan_word "true" (String c r) with
            | Got _ rest => Got (JBool true) rest
            | Bad => Bad
            | More => More
            end
          else if Ascii.eqb c "f" then
            match scan_word "false" (String c r) with
            | Got _ rest => Got (JBool false) rest
            | Bad => Bad
            | More => More
            end
          else if Ascii.eqb c "n" then
            match scan_word "null" (String c r) with
            | Got _ rest => Got JNull rest
            | Bad => Bad
            | More => More
            end
          else if Ascii.eqb c "-" || is_digit c then
            match scan_number (String c r) with
            | Got lit rest => Got (JNumber lit) rest
            | Bad => Bad
            | More => More
            end
          else Bad
      end
  end
with scan_elements (fuel : nat) (s : string) (acc : list json) : step json :=
  match fuel with
  | O => Bad
  | S fuel =>
      match scan_value fuel s with
      | Got j rest =>
          match skip_space rest with
          | "" => More
          | String c r =>
              if Ascii.eqb c "," then scan_elements fuel r (acc ++ [j])
              else if Ascii.eqb c "]" then Got (JArray (acc ++ [j])) r
              else Bad
          end
      | Bad => Bad
      | More => More
      end
  end
with scan_members (fuel : nat) (s : string) (acc : list (string * json))
  : step json :=
  match fuel with
  | O => Bad
  | S fuel =>
      match skip_space s with
      | "" => More
      | String q r =>
          if Ascii.eqb q dquote then
            match scan_chars r "" with
            | Got key rest =>
                match skip_space rest with
                | "" => More
                | String c r' =>
                    if Ascii.eqb c ":" then
                      match scan_value fuel r' with
                      | Got j rest' =>
                          match skip_space rest' with
                          | "" => More
                          | String d r'' =>
                              if Ascii.eqb d ","
                              then scan_members fuel r'' (acc ++ [(key, j)])
                              else if Ascii.eqb d "}"
                              then Got (JObject (acc ++ [(key, j)])) r''
                              else Bad
                          end
                      | Bad => Bad
                      | More => More
                      end
                    else Bad
                end
            | Bad => Bad
            | More => More
            end
          else Bad
      end
  end.

Definition reference_scan (s : string) : scan_result :=
  match scan_value (2 * String.length s + 2) s with
  | Got j rest => ScanValue j rest
  | Bad => ScanError
  | More => ScanEnd
  end.

(** ** What a reader gets of an encoded value

    The JSON data that the encoding of a value stands for.  encoding/json
    writes U+FFFD for every byte of a string that is not part of valid
    UTF-8, so that is what a reader finds in its place.  A value with a
    MarshalJSON method stands for whatever its method wrote, which the
    value itself does not tell. *)

Definition replaced : string := utf8_EncodeRune ReplacementChar.

(** A string as a reader of its encoding finds it: valid UTF-8 is kept,
    every other byte has become U+FFFD. *)
Fixpoint utf8_repaired (src : string) : string :=
  match src with
  | "" => ""
  | String b r1 =>
      if (nat_of_ascii b <? 128)%nat
      then String b (utf8_repaired r1)
      else
        match rune_size b, r1 with
        | 2%nat, String c1 r2 =>
            if second_ok b c1
            then String b (String c1 (utf8_repaired r2))
            else replaced ++ utf8_repaired r1
        | 3%nat, String c1 (String c2 r3) =>
            if second_ok b c1 && continuation c2
            then String b (String c1 (String c2 (utf8_repaired r3)))
            else replaced ++ utf8_repaired r1
        | 4%nat, String c1 (String c2 (String c3 r4)) =>
            if second_ok b c1 && continuation c2 && continuation c3
            then String b (String c1 (String c2 (String c3
                   (utf8_repaired r4))))
            else replaced ++ utf8_repaired r1
        | _, _ => replaced ++ utf8_repaired r1
        end
  end.

(** The data that a value of plain Go data stands for, with numbers in
    the decimal notation of strconv; there is none for a value that the
    encoder cannot write, or that writes itself. *)
Fixpoint json_of_value (v : gvalue) : option json :=
  match v with
  | VNil => Some JNull
  | VBool b => Some (JBool b)
  | VInt n => Some (JNumber (decimal n))
  | VString s => Some (JString (utf8_repaired s))
  | VSlice items => JArray <$> mapM json_of_value items
  | VStruct fields =>
      JObject <$> mapM (λ kv, let '(k, x) := kv in
                              j ← json_of_value x;
                              Some (utf8_repaired k, j)) fields
  | VMarshaler _ | VUnsupported => None
  end.

(** The occurrences of [<], [>] and [&] in the strings and member names
    of JSON data, in the order of the text. *)
Fixpoint html_of_json (j : json) : string :=
  match j with
  | JString s => keep_html s
  | JArray items => String.concat "" (map html_of_json items)
  | JObject members =>
      String.concat ""
        (map (λ kv, let '(k, x) := kv in keep_html k ++ html_of_json x)
           members)
  | _ => ""
  end.

(** What may follow a number in a text: anything but a character that
    would make the number longer. *)
Definition delimited (rest : string) : bool :=
  match rest with
  | "" => true
  | String c _ =>
      negb (is_digit c || Ascii.eqb c "." || Ascii.eqb c "e" || Ascii.eqb c "E")
  end.

(** The first character of a number is a digit or a minus sign. *)
Definition starts_number (s : string) : bool :=
  match s with
  | String c _ => Ascii.eqb c "-" || is_digit c
  | "" => false
  end.

(** A text that starts with neither white space nor a closing bracket. *)
Definition head_ok (s : string) : bool :=
  match s with
  | String c _ => negb (isSpace c) && negb (Ascii.eqb c "]")
  | "" => false
  end.

(** The scanner reads the encoding of [v] back as the data [v] stands
    for, whatever follows. *)
Definition reads_back (v : gvalue) : Prop :=
  ∀ out j fuel rest,
    encode_value false v = Some out → json_of_value v = Some j →
    (String.length out < fuel)%nat → delimited rest = true →
    scan_value fuel (out ++ rest) = Got j rest.

(** Folding of ASCII letters, which is all of encoding/json's folding on
    ASCII names. *)
Definition fold_ascii (c : ascii) : ascii :=
  if byte_in 97 122 c then ascii_of_nat (nat_of_ascii c - 32) else c.

Fixpoint ascii_foldName (s : string) : string :=
  match s with
  | "" => ""
  | String c r => String (fold_ascii c) (ascii_foldName r)
  end.

(** Enough of net/url, go-querystring and net/http to run examples: URLs
    without control characters, a base that ends in a slash with a plain
    relative path, flat structs of strings, integers and booleans, and no
    network. *)
Fixpoint no_control (s : string) : bool :=
  match s with
  | "" => true
  | String c r => negb (byte_in 0 31 c) && negb (byte_in 127 127 c)
                  && no_control r
  end.

Definition reference_url_Parse (s : string) : URL + error :=
  if no_control s then inl s
  else inr (LibError (errors_New "net/url: invalid control character in URL")).

Definition reference_ResolveReference (base : option URL) (ref : URL)
  : outcome URL :=
  match base with
  | None => Panics
  | Some b => Returns (b ++ ref)
  end.

(** url.QueryEscape: letters, digits, [-], [_], [.] and [~] are kept, a
    space becomes [+], every other byte [%XX]. *)
Definition upper_hex (n : nat) : ascii :=
  match String.get n "0123456789ABCDEF" with
  | Some c => c
  | None => "0"%char
  end.

Definition shouldEscape (c : ascii) : bool :=
  negb (byte_in 48 57 c || byte_in 65 90 c || byte_in 97 122 c
        || match nat_of_ascii c with
           | 45%nat | 95%nat | 46%nat | 126%nat => true
           | _ => false
           end).

Fixpoint url_QueryEscape (s : string) : string :=
  match s with
  | "" => ""
  | String c r =>
      (if negb (shouldEscape c) then String c ""
       else if Ascii.eqb c " " then "+"
       else String "%" (String (upper_hex (nat_of_ascii c / 16))
                          (String (upper_hex (nat_of_ascii c mod 16)) "")))
      ++ url_QueryEscape r
  end.

(** The text go-querystring gives for a field of a flat struct. *)
Definition reference_field (v : gvalue) : option string :=
  match v with
  | VString s => Some s
  | VInt n => Some (decimal n)
  | VBool b => Some (if b then "true" else "false")
  | _ => None
  end.

(** url.Values.Encode goes through the keys in sorted order; the values
    of one key keep the order in which they were added. *)
Fixpoint insert_by_key (kv : string * string) (l : list (string * string))
  : list (string * string) :=
  match l with
  | [] => [kv]
  | y :: l' =>
      if String.leb (fst y) (fst kv) then y :: insert_by_key kv l'
      else kv :: l
  end.

Definition sort_by_key (l : list (string * string)) : list (string * string) :=
  fold_left (λ sorted kv, insert_by_key kv sorted) l [].

Definition Values_Encode (values : list (string * string)) : string :=
  String.concat "&"
    (map (λ kv, url_QueryEscape (fst kv) ++ "=" ++ url_QueryEscape (snd kv))
       (sort_by_key values)).

Definition reference_query_Values (body : gvalue) : string + error :=
  match body with
  | VStruct fields =>
      match mapM (λ kv, pair (fst kv) <$> reference_field (snd kv)) fields with
      | Some values => inl (Values_Encode values)
      | None => inr (LibError (errors_New "query: unsupported field"))
      end
  | _ => inr (LibError (errors_New "query: Values() expects struct input"))
  end.

Definition no_network (req : Request) : option HttpResponse * option error :=
  (None, Some (LibError (errors_New "dial tcp: connection refused"))).

(** Storing a value that is not null through a [*http.Response]: a nil
    pointer is allocated first.  The members of the value are not looked
    at, which is enough for the examples: none of them has a value other
    than null under [Response]. *)
Definition reference_store_Response (j : json) (r : option HttpResponse)
  : option HttpResponse * option error :=
  match r with
  | Some r => (Some r, None)
  | None =>
      (Some {| StatusCode := 0;
               Body := {| rd_data := ""; rd_fail := None |};
               resp_Request := None |}, None)
  end.

Definition reference_GoLib : GoLib :=
  {| json_scan := reference_scan;
     json_foldName := ascii_foldName;
     json_store_Response := reference_store_Response;
     url_Parse := reference_url_Parse;
     url_ResolveReference := reference_ResolveReference;
     query_Values := reference_query_Values;
     http_DefaultClient := no_network |}.

(** Decoding into an OIDCToken by the member [access_token]. *)
Definition reference_Unmarshal_OIDCToken : Unmarshal OIDCToken := λ j t,
  match j with
  | JObject members =>
      fold_left
        (λ acc kv,
           if String.eqb (ascii_foldName (fst kv)) "ACCESS_TOKEN" then
             match snd kv with
             | JString s => ({| AccessToken := s |}, snd acc)
             | JNull => acc
             | _ =>
                 (fst acc,
                  match snd acc with
                  | None => Some (LibError json_UnmarshalTypeError)
                  | saved => saved
                  end)
             end
           else acc) members (t, None)
  | JNull => (t, None)
  | _ => (t, Some (LibError json_UnmarshalTypeError))
  end.

Definition quoted (s : string) : string :=
  String dquote (s ++ String dquote "").

(** ** Clients, transports and requests for the examples *)

Definition example_request : Request :=
  {| Method := "GET"; req_URL := "https://sso.example/admin/realms/demo/users";
     Header := ∅; req_Body := None; req_ctx := context_Background |}.

(** A transport that answers every request with the given status and
    body. *)
Definition answering (status : Z) (body : Reader)
  : Request → option HttpResponse * option error :=
  λ req, (Some {| StatusCode := status; Body := body;
                  resp_Request := Some req |},
          None).

Definition bytes (data : string) : Reader :=
  {| rd_data := data; rd_fail := None |}.

Definition example_client
    (transport : Request → option HttpResponse * option error) : Client :=
  NewPublicAdmin (H := reference_GoLib) (Some transport)
    "https://sso.example/" "demo" false "app" "admin" "hunter2".

(** A file on a disk that is full. *)
Definition full_disk : Writer :=
  {| wr_written := ""; wr_fail := Some "write: no space left on device" |}.

Definition token_body : string :=
  "{" ++ quoted "access_token" ++ ":" ++ quoted "eyJh.bGci.OiJI" ++ ","
      ++ quoted "expires_in" ++ ":300}".

(** The Token Acquirer posting to Keycloak's token endpoint. *)
Definition example_acquirer : Acquirer :=
  @GetOIDCToken reference_GoLib "POST" "protocol/openid-connect/token"
    reference_Unmarshal_OIDCToken.

(** A service account whose identity provider grants every request. *)
Definition service_client : Client :=
  NewServiceAccount (H := reference_GoLib)
    (Some (answering 200 (bytes token_body)))
    "https://sso.example/" "demo" true "app" "s3cret".

(** A confidential admin whose identity provider turns every grant
    request down. *)
Definition refused_client : Client :=
  NewConfidentialAdmin (H := reference_GoLib)
    (Some (answering 401
             (bytes ("{" ++ quoted "error_description" ++ ":"
                         ++ quoted "Invalid user credentials" ++ "}"))))
    "https://sso.example/" "demo" false "app" "s3cret" "admin" "hunter2".

Definition no_hints : headers := {| authorization := ""; contentType := "" |}.

Definition users_path : string := "admin/realms/demo/users".

(** A context that was cancelled. *)
Definition cancelled_context : Context := {| ctx_Err := Some context_Canceled |}.

(** A response body that was closed before it is read. *)
Definition closed_body : Reader :=
  {| rd_data := ""; rd_fail := Some "http: read on closed response body" |}.

(** A transport that returns a response together with an error, as
    http.Client.Do does when the redirect policy fails. *)
Definition refusing_redirect (status : Z) (body : Reader)
  : Request → option HttpResponse * option error :=
  λ req, (Some {| StatusCode := status; Body := body;
                  resp_Request := Some req |},
          Some (LibError (errors_New "stopped after 10 redirects"))).

(** A buffer that already holds some bytes. *)
Definition buffer (held : string) : Writer :=
  {| wr_written := held; wr_fail := None |}.

Definition form_hints : headers :=
  {| authorization := ""; contentType := formEncoded |}.

(** The string [<b>] behind a type whose MarshalJSON method calls
    json.Marshal, which escapes HTML: the method returns the text
    ["\u003cb\u003e"], quotes included. *)
Definition escaping_marshaler : gvalue :=
  VMarshaler (Some (quoted "\u003cb\u003e")).

(** A path that url.Parse rejects. *)
Definition control_path : string := String (ascii_of_nat 10) "users".

(** * Properties *)

(** ** The JSON encoder and the three HTML characters *)

Lemma keep_html_app s1 s2 :
  keep_html (s1 ++ s2) = keep_html s1 ++ keep_html s2.
Proof.
  induction s1 as [|c s1 IH]; [reflexivity |].
  change (keep_html (String c (s1 ++ s2))
          = keep_html (String c s1) ++ keep_html s2).
  cbn [keep_html]. rewrite IH. destruct (is_html c); reflexivity.
Qed.

Lemma keep_html_prefix p s :
  keep_html p = "" → keep_html (p ++ s) = keep_html s.
Proof. intros Hp. rewrite keep_html_app, Hp. reflexivity. Qed.

Lemma high_byte_not_html c :
  (128 <=? nat_of_ascii c)%nat = true → is_html c = false.
Proof.
  destruct c as [[] [] [] [] [] [] [] []]; vm_compute; congruence.
Qed.

Lemma byte_in_high lo hi c :
  (128 ≤ lo)%nat → byte_in lo hi c = true → is_html c = false.
Proof.
  intros Hlo Hin. apply high_byte_not_html.
  unfold byte_in in Hin. apply andb_prop in Hin as [Hin _].
  apply Nat.leb_le in Hin. apply Nat.leb_le. lia.
Qed.

Lemma second_ok_not_html b c1 : second_ok b c1 = true → is_html c1 = false.
Proof.
  unfold second_ok, continuation.
  repeat case_match; apply byte_in_high; lia.
Qed.

Lemma continuation_not_html c : continuation c = true → is_html c = false.
Proof. apply byte_in_high. lia. Qed.

Lemma keep_html_escape_byte b :
  keep_html (escape_byte false b) = keep_html (String b "").
Proof. destruct b as [[] [] [] [] [] [] [] []]; reflexivity. Qed.

Lemma keep_html_escape_byte_html b :
  keep_html (escape_byte true b) = "".
Proof. destruct b as [[] [] [] [] [] [] [] []]; reflexivity. Qed.

Lemma hex_not_html n : is_html (hex n) = false.
Proof. do 17 (destruct n as [|n]; [reflexivity |]). reflexivity. Qed.

(** With [escapeHTML] off, the string encoder passes every [<], [>] and
    [&] through as it is, and introduces none. *)
Lemma keep_html_encode_bytes s :
  keep_html (encode_bytes false s) = keep_html s.
Proof.
  remember (String.length s) as n eqn:Hn.
  revert s Hn. induction n as [n IH] using lt_wf_ind. intros s Hn.
  destruct s as [|b r1]; [reflexivity |].
  cbn [encode_bytes].
  assert (IH1 : keep_html (encode_bytes false r1) = keep_html r1)
    by (eapply IH; [| reflexivity]; subst n; cbn; lia).
  destruct (nat_of_ascii b <? 128)%nat eqn:Hb.
  { rewrite keep_html_app, keep_html_escape_byte, IH1.
    cbn [keep_html]. destruct (is_html b); reflexivity. }
  assert (Hnb : is_html b = false).
  { apply high_byte_not_html. apply Nat.ltb_ge in Hb. apply Nat.leb_le. lia. }
  assert (Hbad : keep_html (replacement ++ encode_bytes false r1)
                 = keep_html (String b r1)).
  { rewrite keep_html_prefix by reflexivity.
    cbn [keep_html]. rewrite Hnb. exact IH1. }
  destruct (rune_size b) as [|[|[|[|[|k]]]]]; try exact Hbad.
  - destruct r1 as [|c1 r2]; [exact Hbad |].
    destruct (second_ok b c1) eqn:H1; [| exact Hbad].
    cbn [keep_html]. rewrite Hnb, (second_ok_not_html _ _ H1).
    eapply IH; [| reflexivity]. subst n; cbn; lia.
  - destruct r1 as [|c1 [|c2 r3]]; try exact Hbad.
    destruct (second_ok b c1) eqn:H1; [| exact Hbad].
    destruct (continuation c2) eqn:H2; [| exact Hbad].
    assert (IH3 : keep_html (encode_bytes false r3) = keep_html r3)
      by (eapply IH; [| reflexivity]; subst n; cbn; lia).
    cbn [andb keep_html].
    rewrite Hnb, (second_ok_not_html _ _ H1), (continuation_not_html _ H2).
    destruct (is_line_separator b c1 c2).
    + rewrite keep_html_prefix by reflexivity.
      cbn [keep_html]. rewrite hex_not_html. exact IH3.
    + cbn [keep_html].
      rewrite Hnb, (second_ok_not_html _ _ H1), (continuation_not_html _ H2).
      exact IH3.
  - destruct r1 as [|c1 [|c2 [|c3 r4]]]; try exact Hbad.
    destruct (second_ok b c1) eqn:H1; [| exact Hbad].
    destruct (continuation c2) eqn:H2; [| exact Hbad].
    destruct (continuation c3) eqn:H3; [| exact Hbad].
    cbn [keep_html andb]. rewrite Hnb, (second_ok_not_html _ _ H1),
      (continuation_not_html _ H2), (continuation_not_html _ H3).
    eapply IH; [| reflexivity]. subst n; cbn; lia.
Qed.

Lemma keep_html_encode_string s :
  keep_html (encode_string false s) = keep_html s.
Proof.
  unfold encode_string.
  change (keep_html (encode_bytes false s ++ String dquote "") = keep_html s).
  rewrite keep_html_app, keep_html_encode_bytes.
  change (keep_html (String dquote "")) with "".
  induction (keep_html s) as [|c t IH]; [reflexivity |].
  change (String c (t ++ "") = String c t). f_equal. exact IH.
Qed.

Lemma keep_html_digits u : keep_html (NilEmpty.string_of_uint u) = "".
Proof. induction u; [reflexivity | ..]; simpl; assumption. Qed.

Lemma keep_html_decimal n : keep_html (decimal n) = "".
Proof.
  unfold decimal, NilZero.string_of_int, NilZero.string_of_uint.
  destruct (Z.to_int n) as [u|u]; destruct u;
    first [reflexivity | apply keep_html_digits
          | apply (keep_html_digits (Decimal.D0 _))
          | simpl; apply keep_html_digits
          | simpl; apply (keep_html_digits (Decimal.D0 _)) ].
Qed.

Lemma gvalue_nested_ind (P : gvalue → Prop) :
  P VNil → (∀ b, P (VBool b)) → (∀ n, P (VInt n)) → (∀ s, P (VString s)) →
  (∀ items, Forall P items → P (VSlice items)) →
  (∀ fields, Forall (λ kv, P (snd kv)) fields → P (VStruct fields)) →
  (∀ text, P (VMarshaler text)) →
  P VUnsupported →
  ∀ v, P v.
Proof.
  intros HNil HBool HInt HString HSlice HStruct HMarshaler HUnsupported.
  fix IH 1. intros [| b | n | s | items | fields | text |].
  - exact HNil.
  - apply HBool.
  - apply HInt.
  - apply HString.
  - apply HSlice. induction items as [|x items IHitems]; constructor.
    + apply IH.
    + exact IHitems.
  - apply HStruct.
    induction fields as [|[k x] fields IHfields]; constructor.
    + apply IH.
    + exact IHfields.
  - apply HMarshaler.
  - exact HUnsupported.
Qed.

Lemma keep_html_concat parts :
  keep_html (String.concat "," parts) = String.concat "" (map keep_html parts).
Proof.
  induction parts as [|x [|y parts] IH]; [reflexivity | reflexivity |].
  change (keep_html (x ++ "," ++ String.concat "," (y :: parts))
          = keep_html x ++ String.concat "" (map keep_html (y :: parts))).
  rewrite keep_html_app, keep_html_prefix by reflexivity.
  rewrite IH. reflexivity.
Qed.

Lemma keep_html_bracketed (l r : ascii) s :
  is_html l = false → is_html r = false →
  keep_html (String l "" ++ s ++ String r "") = keep_html s.
Proof.
  intros Hl Hr.
  rewrite keep_html_prefix by (cbn [keep_html]; rewrite Hl; reflexivity).
  rewrite keep_html_app. cbn [keep_html]. rewrite Hr.
  induction (keep_html s) as [|c t IH]; [reflexivity |].
  change (String c (t ++ "") = String c t). f_equal. exact IH.
Qed.

(** With [escapeHTML] off, the encoding of a value holds exactly the
    [<], [>] and [&] of its strings and member names, in order. *)
Lemma keep_html_encode_value v out :
  encode_value false v = Some out → keep_html out = html_of_value v.
Proof.
  revert out. induction v as [| b | n | s | items IH | fields IH | text |]
    using gvalue_nested_ind; intros out Hout; cbn [encode_value] in Hout.
  - injection Hout as <-. reflexivity.
  - injection Hout as <-. destruct b; reflexivity.
  - injection Hout as <-. apply keep_html_decimal.
  - injection Hout as <-. apply keep_html_encode_string.
  - destruct (mapM (encode_value false) items) as [parts|] eqn:Hparts;
      [| discriminate].
    injection Hout as <-.
    rewrite (keep_html_bracketed "[" "]") by reflexivity.
    rewrite keep_html_concat. cbn [html_of_value]. f_equal.
    apply mapM_Some in Hparts. clear -IH Hparts.
    induction Hparts as [|x p items parts Hx _ IHparts];
      [reflexivity |].
    inversion IH as [|? ? Hx' IH']; subst.
    cbn [map]. f_equal; [apply Hx', Hx | apply IHparts, IH'].
  - match type of Hout with
    | context [mapM ?f fields] =>
        destruct (mapM f fields) as [parts|] eqn:Hparts; [| discriminate]
    end.
    injection Hout as <-.
    rewrite (keep_html_bracketed "{" "}") by reflexivity.
    rewrite keep_html_concat. cbn [html_of_value]. f_equal.
    apply mapM_Some in Hparts. clear -IH Hparts.
    induction Hparts as [|[k x] p fields parts Hx _ IHparts];
      [reflexivity |].
    inversion IH as [|? ? Hx' IH']; subst.
    cbn [map]. f_equal; [| apply IHparts, IH'].
    destruct (encode_value false x) as [o|] eqn:Ho; [| discriminate].
    injection Hx as <-.
    rewrite keep_html_app, keep_html_encode_string.
    rewrite keep_html_prefix by reflexivity.
    f_equal. apply Hx'. exact Ho.
  - subst text. reflexivity.
  - discriminate.
Qed.

(** With [escapeHTML] on, none of the three characters is left in an
    encoded string: the option is what keeps them. *)
Lemma keep_html_encode_string_html s :
  keep_html (encode_string true s) = "".
Proof.
  unfold encode_string.
  change (keep_html (encode_bytes true s ++ String dquote "") = "").
  rewrite keep_html_app. change (keep_html (String dquote "")) with "".
  enough (Hs : keep_html (encode_bytes true s) = "") by (rewrite Hs; reflexivity).
  remember (String.length s) as n eqn:Hn.
  revert s Hn. induction n as [n IH] using lt_wf_ind. intros s Hn.
  destruct s as [|b r1]; [reflexivity |].
  cbn [encode_bytes].
  assert (IH1 : keep_html (encode_bytes true r1) = "")
    by (eapply IH; [| reflexivity]; subst n; cbn; lia).
  destruct (nat_of_ascii b <? 128)%nat eqn:Hb.
  { rewrite keep_html_app, keep_html_escape_byte_html, IH1. reflexivity. }
  assert (Hnb : is_html b = false).
  { apply high_byte_not_html. apply Nat.ltb_ge in Hb. apply Nat.leb_le. lia. }
  assert (Hbad : keep_html (replacement ++ encode_bytes true r1) = "").
  { rewrite keep_html_prefix by reflexivity. exact IH1. }
  destruct (rune_size b) as [|[|[|[|[|k]]]]]; try exact Hbad.
  - destruct r1 as [|c1 r2]; [exact Hbad |].
    destruct (second_ok b c1) eqn:H1; [| exact Hbad].
    cbn [keep_html]. rewrite Hnb, (second_ok_not_html _ _ H1).
    eapply IH; [| reflexivity]. subst n; cbn; lia.
  - destruct r1 as [|c1 [|c2 r3]]; try exact Hbad.
    destruct (second_ok b c1) eqn:H1; [| exact Hbad].
    destruct (continuation c2) eqn:H2; [| exact Hbad].
    assert (IH3 : keep_html (encode_bytes true r3) = "")
      by (eapply IH; [| reflexivity]; subst n; cbn; lia).
    cbn [andb].
    destruct (is_line_separator b c1 c2).
    + rewrite keep_html_prefix by reflexivity.
      cbn [keep_html]. rewrite hex_not_html. exact IH3.
    + cbn [keep_html].
      rewrite Hnb, (second_ok_not_html _ _ H1), (continuation_not_html _ H2).
      exact IH3.
  - destruct r1 as [|c1 [|c2 [|c3 r4]]]; try exact Hbad.
    destruct (second_ok b c1) eqn:H1; [| exact Hbad].
    destruct (continuation c2) eqn:H2; [| exact Hbad].
    destruct (continuation c3) eqn:H3; [| exact Hbad].
    cbn [keep_html andb]. rewrite Hnb, (second_ok_not_html _ _ H1),
      (continuation_not_html _ H2), (continuation_not_html _ H3).
    eapply IH; [| reflexivity]. subst n; cbn; lia.
Qed.

(** ** The scanner on the encoder's output

    What the encoder writes with HTML escaping off, the scanner reads back:
    strings first, then numbers, then values. *)

Lemma append_cons c s t : String c s ++ t = String c (s ++ t).
Proof. reflexivity. Qed.

Lemma append_nil_r s : s ++ "" = s.
Proof.
  induction s as [|c s IH]; [reflexivity |].
  rewrite append_cons, IH. reflexivity.
Qed.

Lemma append_assoc s t u : (s ++ t) ++ u = s ++ (t ++ u).
Proof.
  induction s as [|c s IH]; [reflexivity |].
  rewrite !append_cons, IH. reflexivity.
Qed.

Lemma length_append s t :
  String.length (s ++ t) = (String.length s + String.length t)%nat.
Proof.
  induction s as [|c s IH]; [reflexivity |].
  rewrite append_cons. cbn [String.length]. rewrite IH. reflexivity.
Qed.

(** *** Strings *)

(** A byte below 0x80: whatever the encoder writes for it, the byte
    itself, a short escape or a [\u00XX], the scanner reads as that
    byte. *)
Lemma scan_chars_escape_byte b t acc :
  (nat_of_ascii b <? 128)%nat = true →
  scan_chars (escape_byte false b ++ t) acc = scan_chars t (acc ++ String b "").
Proof.
  destruct b as [[] [] [] [] [] [] [] []]; intros Hb;
    first [discriminate Hb | reflexivity].
Qed.

(** A byte from 0x80 on is neither a quote nor a backslash nor a control
    character: the scanner goes by the UTF-8 sequence it starts. *)
Lemma scan_chars_high b r1 acc :
  (nat_of_ascii b <? 128)%nat = false →
  scan_chars (String b r1) acc
  = match rune_size b, r1 with
    | 2%nat, String c1 r2 =>
        if second_ok b c1
        then scan_chars r2 (acc ++ String b (String c1 ""))
        else scan_chars r1 (acc ++ utf8_EncodeRune ReplacementChar)
    | 3%nat, String c1 (String c2 r3) =>
        if second_ok b c1 && continuation c2
        then scan_chars r3 (acc ++ String b (String c1 (String c2 "")))
        else scan_chars r1 (acc ++ utf8_EncodeRune ReplacementChar)
    | 4%nat, String c1 (String c2 (String c3 r4)) =>
        if second_ok b c1 && continuation c2 && continuation c3
        then scan_chars r4
               (acc ++ String b (String c1 (String c2 (String c3 ""))))
        else scan_chars r1 (acc ++ utf8_EncodeRune ReplacementChar)
    | _, _ => scan_chars r1 (acc ++ utf8_EncodeRune ReplacementChar)
    end.
Proof.
  intros Hb.
  assert (Hq : Ascii.eqb b dquote = false ∧ Ascii.eqb b backslash = false
               ∧ (nat_of_ascii b <? 32)%nat = false).
  { clear -Hb. destruct b as [[] [] [] [] [] [] [] []];
      first [discriminate Hb | repeat split; reflexivity]. }
  destruct Hq as (Hq1 & Hq2 & Hq3).
  destruct r1 as [|c1 r2]; cbn [scan_chars]; rewrite Hq1, Hq2, Hq3, Hb;
    reflexivity.
Qed.

Lemma scan_chars_replacement t acc :
  scan_chars (replacement ++ t) acc = scan_chars t (acc ++ replaced).
Proof. reflexivity. Qed.

Lemma is_line_separator_inv b c1 c2 :
  is_line_separator b c1 c2 = true →
  b = ascii_of_nat 226 ∧ c1 = ascii_of_nat 128
  ∧ (c2 = ascii_of_nat 168 ∨ c2 = ascii_of_nat 169).
Proof.
  unfold is_line_separator, byte_in.
  intros [[Hb%Nat.eqb_eq Hc1%Nat.eqb_eq]%andb_prop
          [Hlo%Nat.leb_le Hhi%Nat.leb_le]%andb_prop]%andb_prop.
  rewrite <- (ascii_nat_embedding b), <- (ascii_nat_embedding c1),
    <- (ascii_nat_embedding c2), Hb, Hc1.
  split; [reflexivity |]. split; [reflexivity |].
  assert (Hc2 : nat_of_ascii c2 = 168%nat ∨ nat_of_ascii c2 = 169%nat) by lia.
  destruct Hc2 as [-> | ->]; auto.
Qed.

(** The scanner reads an encoded string back: the text, with [U+FFFD] in
    the place of every byte that is not part of valid UTF-8. *)
Lemma scan_chars_encode_bytes s rest acc :
  scan_chars (encode_bytes false s ++ String dquote rest) acc
  = Got (acc ++ utf8_repaired s) rest.
Proof.
  remember (String.length s) as n eqn:Hn.
  revert s Hn acc. induction n as [n IH] using lt_wf_ind. intros s Hn acc.
  destruct s as [|b r1].
  { cbn [encode_bytes utf8_repaired]. rewrite append_nil_r. reflexivity. }
  assert (IH' : ∀ r acc', (String.length r < n)%nat →
            scan_chars (encode_bytes false r ++ String dquote rest) acc'
            = Got (acc' ++ utf8_repaired r) rest)
    by (intros r acc' Hr; eapply IH; [exact Hr | reflexivity]).
  assert (Hlen : n = S (String.length r1)) by (subst n; reflexivity).
  clear IH Hn.
  cbn [encode_bytes utf8_repaired].
  destruct (nat_of_ascii b <? 128)%nat eqn:Hb.
  { rewrite append_assoc, scan_chars_escape_byte by exact Hb.
    rewrite IH' by lia. rewrite append_assoc. reflexivity. }
  assert (Hbad : scan_chars
                   ((replacement ++ encode_bytes false r1) ++ String dquote rest)
                   acc
                 = Got (acc ++ replaced ++ utf8_repaired r1) rest).
  { rewrite append_assoc, scan_chars_replacement, IH' by lia.
    rewrite append_assoc. reflexivity. }
  destruct (rune_size b) as [|[|[|[|[|k]]]]] eqn:Hsize; try exact Hbad.
  - destruct r1 as [|c1 r2]; [exact Hbad |].
    destruct (second_ok b c1) eqn:H1; [| exact Hbad].
    rewrite !append_cons, scan_chars_high, Hsize, H1 by exact Hb.
    rewrite IH' by (cbn [String.length] in Hlen; lia).
    rewrite append_assoc. reflexivity.
  - destruct r1 as [|c1 [|c2 r3]]; try exact Hbad.
    destruct (second_ok b c1) eqn:H1; [| exact Hbad].
    destruct (continuation c2) eqn:H2; [| exact Hbad].
    cbn [andb].
    destruct (is_line_separator b c1 c2) eqn:Hsep.
    + apply is_line_separator_inv in Hsep as (-> & -> & [-> | ->]);
        lazymatch goal with
        | |- _ = Got (acc ++ String ?x (String ?y (String ?z _))) _ =>
            transitivity
              (scan_chars (encode_bytes false r3 ++ String dquote rest)
                 (acc ++ String x (String y (String z ""))));
            [reflexivity |]
        end;
        (rewrite IH' by (cbn [String.length] in Hlen; lia));
        rewrite append_assoc; reflexivity.
    + rewrite !append_cons, scan_chars_high, Hsize, H1, H2 by exact Hb.
      cbn [andb]. rewrite IH' by (cbn [String.length] in Hlen; lia).
      rewrite append_assoc. reflexivity.
  - destruct r1 as [|c1 [|c2 [|c3 r4]]]; try exact Hbad.
    destruct (second_ok b c1) eqn:H1; [| exact Hbad].
    destruct (continuation c2) eqn:H2; [| exact Hbad].
    destruct (continuation c3) eqn:H3; [| exact Hbad].
    cbn [andb].
    rewrite !append_cons, scan_chars_high, Hsize, H1, H2, H3 by exact Hb.
    cbn [andb]. rewrite IH' by (cbn [String.length] in Hlen; lia).
    rewrite append_assoc. reflexivity.
Qed.

(** *** Numbers *)

Lemma delimited_not_digit rest :
  delimited rest = true →
  match rest with String c _ => is_digit c = false | "" => True end.
Proof.
  destruct rest as [|c r]; [done |]. unfold delimited.
  destruct (is_digit c); [discriminate | reflexivity].
Qed.

Lemma take_digits_uint u rest :
  delimited rest = true →
  take_digits (NilEmpty.string_of_uint u ++ rest)
  = (NilEmpty.string_of_uint u, rest).
Proof.
  intros Hrest%delimited_not_digit.
  induction u as [|u IH|u IH|u IH|u IH|u IH|u IH|u IH|u IH|u IH|u IH];
    cbn [NilEmpty.string_of_uint];
    [ destruct rest as [|c r]; [reflexivity |];
      change ("" ++ String c r) with (String c r);
      cbn [take_digits]; rewrite Hrest; reflexivity
    | rewrite append_cons; cbn [take_digits];
      change (is_digit _) with true; cbv iota; rewrite IH; reflexivity .. ].
Qed.

Lemma scan_fraction_delimited lit rest :
  delimited rest = true → scan_fraction lit rest = Got lit rest.
Proof.
  destruct rest as [|c r]; [reflexivity |]. unfold delimited.
  intros Hc%negb_true_iff. unfold scan_fraction, scan_exponent.
  destruct (is_digit c), (Ascii.eqb c "."), (Ascii.eqb c "e"),
    (Ascii.eqb c "E"); try discriminate; reflexivity.
Qed.

(** Digits without a leading zero are read as one number. *)
Lemma scan_number_uint u rest :
  u ≠ Decimal.Nil → Decimal.nzhead u = u → delimited rest = true →
  scan_number (NilEmpty.string_of_uint u ++ rest)
  = Got (NilEmpty.string_of_uint u) rest
  ∧ scan_number (String "-" (NilEmpty.string_of_uint u ++ rest))
    = Got (String "-" (NilEmpty.string_of_uint u)) rest.
Proof.
  intros Hnil Hhead Hrest.
  pose proof (take_digits_uint u rest Hrest) as Htake.
  pose proof (scan_fraction_delimited (NilEmpty.string_of_uint u) rest Hrest)
    as Hplain.
  pose proof (scan_fraction_delimited
                (String "-" (NilEmpty.string_of_uint u)) rest Hrest) as Hminus.
  destruct u as [|u|u|u|u|u|u|u|u|u|u]; [done | ..];
    try (exfalso; eapply DecimalFacts.nzhead_nonzero; exact Hhead);
    cbn [NilEmpty.string_of_uint] in *; rewrite append_cons in *;
    unfold scan_number;
    (split;
     [ change (Ascii.eqb _ "-") with false; cbv iota;
       change (Ascii.eqb _ "0") with false; cbv iota;
       change (is_digit _) with true; cbv iota;
       rewrite Htake; exact Hplain
     | change (Ascii.eqb "-" "-") with true; cbv iota;
       change (Ascii.eqb _ "0") with false; cbv iota;
       change (is_digit _) with true; cbv iota;
       rewrite Htake; exact Hminus ]).
Qed.

(** The digits of a positive number are not empty and do not start with
    a zero. *)
Lemma to_uint_canonical p :
  Pos.to_uint p ≠ Decimal.Nil
  ∧ Decimal.nzhead (Pos.to_uint p) = Pos.to_uint p.
Proof.
  split; [apply DecimalPos.Unsigned.to_uint_nonnil |].
  pose proof (DecimalPos.Unsigned.to_of (Pos.to_uint p)) as Hnorm.
  rewrite DecimalPos.Unsigned.of_to in Hnorm. cbn [N.to_uint] in Hnorm.
  assert (Hcases : Decimal.nzhead (Pos.to_uint p) = Decimal.Nil
                   ∨ Decimal.nzhead (Pos.to_uint p) ≠ Decimal.Nil)
    by (destruct (Decimal.nzhead (Pos.to_uint p));
        [left; reflexivity | right; discriminate ..]).
  destruct Hcases as [E | E].
  - exfalso. apply (DecimalPos.Unsigned.to_uint_nonzero p).
    rewrite Hnorm. apply DecimalFacts.unorm_0. exact E.
  - rewrite Hnorm at 2. symmetry. apply DecimalFacts.unorm_nzhead. exact E.
Qed.

Lemma decimal_cases n :
  decimal n = "0"
  ∨ ∃ u, u ≠ Decimal.Nil ∧ Decimal.nzhead u = u
         ∧ (decimal n = NilEmpty.string_of_uint u
            ∨ decimal n = String "-" (NilEmpty.string_of_uint u)).
Proof.
  unfold decimal. destruct n as [|p|p]; [left; reflexivity | right ..];
    destruct (to_uint_canonical p) as [Hnil Hhead];
    exists (Pos.to_uint p); (split; [exact Hnil |]); (split; [exact Hhead |]);
    cbn [Z.to_int NilZero.string_of_int]; unfold NilZero.string_of_uint;
    [left | right]; destruct (Pos.to_uint p); done.
Qed.

Lemma scan_number_decimal n rest :
  delimited rest = true →
  scan_number (decimal n ++ rest) = Got (decimal n) rest.
Proof.
  intros Hrest.
  destruct (decimal_cases n) as [-> | (u & Hnil & Hhead & [-> | ->])].
  - rewrite append_cons. unfold scan_number.
    change (Ascii.eqb "0" "-") with false. cbv iota.
    change (Ascii.eqb "0" "0") with true. cbv iota.
    apply (scan_fraction_delimited "0"). exact Hrest.
  - apply scan_number_uint; assumption.
  - rewrite append_cons. apply scan_number_uint; assumption.
Qed.

Lemma starts_number_uint u :
  u ≠ Decimal.Nil → starts_number (NilEmpty.string_of_uint u) = true.
Proof. destruct u; done. Qed.

Lemma starts_number_decimal n : starts_number (decimal n) = true.
Proof.
  destruct (decimal_cases n) as [-> | (u & Hnil & _ & [-> | ->])];
    [reflexivity | | reflexivity].
  apply starts_number_uint. exact Hnil.
Qed.

Lemma scan_value_number fuel s :
  starts_number s = true →
  scan_value (S fuel) s
  = match scan_number s with
    | Got lit rest => Got (JNumber lit) rest
    | Bad => Bad
    | More => More
    end.
Proof.
  destruct s as [|c r]; [discriminate |]. cbn [starts_number].
  intros Hc. cbn [scan_value skip_space].
  assert (Hnot : isSpace c = false ∧ Ascii.eqb c "{" = false
                 ∧ Ascii.eqb c "[" = false ∧ Ascii.eqb c dquote = false
                 ∧ Ascii.eqb c "t" = false ∧ Ascii.eqb c "f" = false
                 ∧ Ascii.eqb c "n" = false).
  { clear -Hc. destruct c as [[] [] [] [] [] [] [] []];
      first [discriminate Hc | repeat split; reflexivity]. }
  destruct Hnot as (-> & -> & -> & -> & -> & -> & ->). rewrite Hc.
  reflexivity.
Qed.

(** *** Values *)

Lemma head_ok_app s t : head_ok s = true → head_ok (s ++ t) = true.
Proof. destruct s; [discriminate | intros Hs; exact Hs]. Qed.

Lemma head_ok_length s : head_ok s = true → (0 < String.length s)%nat.
Proof. destruct s; [discriminate | cbn; lia]. Qed.

Lemma head_ok_number s : starts_number s = true → head_ok s = true.
Proof.
  destruct s as [|c r]; [discriminate |]. cbn [starts_number head_ok].
  destruct c as [[] [] [] [] [] [] [] []]; intros Hc;
    first [discriminate Hc | reflexivity].
Qed.

Lemma starts_number_app s t :
  starts_number s = true → starts_number (s ++ t) = true.
Proof. destruct s; [discriminate | intros Hs; exact Hs]. Qed.

Lemma mapM_cons_inv {A B} (f : A → option B) x l k :
  mapM f (x :: l) = Some k →
  ∃ y k', f x = Some y ∧ mapM f l = Some k' ∧ k = y :: k'.
Proof.
  intros (y & k' & Hy & Hk & ->)%mapM_Some%Forall2_cons_inv_l.
  exists y, k'. split; [exact Hy |]. split; [| reflexivity].
  apply mapM_Some. exact Hk.
Qed.

Lemma mapM_nil_inv {A B} (f : A → option B) k :
  mapM f [] = Some k → k = [].
Proof. intros [= <-]. reflexivity. Qed.

(** The encoding of plain data starts with the first character of a
    JSON value. *)
Lemma encode_value_head v out j :
  encode_value false v = Some out → json_of_value v = Some j →
  head_ok out = true.
Proof.
  destruct v as [| b | n | s | items | fields | text |];
    cbn [encode_value json_of_value]; intros Hout Hj; try discriminate.
  - injection Hout as <-. reflexivity.
  - injection Hout as <-. destruct b; reflexivity.
  - injection Hout as <-. apply head_ok_number, starts_number_decimal.
  - injection Hout as <-. reflexivity.
  - destruct (mapM (encode_value false) items); [| discriminate].
    injection Hout as <-. reflexivity.
  - match type of Hout with
    | context [mapM ?f fields] => destruct (mapM f fields); [| discriminate]
    end.
    injection Hout as <-. reflexivity.
Qed.

Lemma scan_value_array fuel s :
  head_ok s = true →
  scan_value (S fuel) (String "[" s) = scan_elements fuel s [].
Proof.
  destruct s as [|d r]; [discriminate |]. cbn [head_ok].
  intros [Hsp%negb_true_iff Hd%negb_true_iff]%andb_prop.
  cbn [scan_value skip_space].
  change (isSpace "[") with false. cbv iota.
  change (Ascii.eqb "[" "{") with false. cbv iota.
  change (Ascii.eqb "[" "[") with true. cbv iota.
  cbn [skip_space]. rewrite Hsp, Hd. reflexivity.
Qed.

Lemma scan_value_object fuel s :
  scan_value (S fuel) (String "{" (String dquote s))
  = scan_members fuel (String dquote s) [].
Proof. reflexivity. Qed.

Lemma member_shape k o t :
  (encode_string false k ++ ":" ++ o) ++ t
  = String dquote (encode_bytes false k ++ String dquote (String ":" (o ++ t))).
Proof.
  unfold encode_string.
  rewrite !append_cons, !append_assoc, !append_cons. reflexivity.
Qed.

(** The elements of an array and the members of an object, given that
    each of them is read back. *)
Lemma scan_elements_encoded items :
  Forall reads_back items → items ≠ [] →
  ∀ parts js fuel acc rest,
    mapM (encode_value false) items = Some parts →
    mapM json_of_value items = Some js →
    (String.length (String.concat "," parts) + 1 < fuel)%nat →
    scan_elements fuel (String.concat "," parts ++ String "]" rest) acc
    = Got (JArray (acc ++ js)) rest.
Proof.
  induction 1 as [|x items Hx _ IH]; [done |]. intros _.
  intros parts js fuel acc rest
    (p & ptl & Hp & Hptl & ->)%mapM_cons_inv
    (jx & jtl & Hjx & Hjtl & ->)%mapM_cons_inv Hfuel.
  destruct fuel as [|fuel]; [lia |].
  pose proof (head_ok_length _ (encode_value_head _ _ _ Hp Hjx)) as Hlen.
  destruct items as [|y items].
  - apply mapM_nil_inv in Hptl as ->. apply mapM_nil_inv in Hjtl as ->.
    cbn [String.concat] in *. cbn [scan_elements].
    rewrite (Hx p jx fuel (String "]" rest) Hp Hjx) by (reflexivity || lia).
    reflexivity.
  - destruct (mapM_cons_inv _ _ _ _ Hptl) as (q & ptl' & _ & _ & ->).
    change (String.concat "," (p :: q :: ptl'))
      with (p ++ "," ++ String.concat "," (q :: ptl')) in *.
    rewrite !length_append in Hfuel. cbn [String.length] in Hfuel.
    rewrite append_assoc.
    change (("," ++ ?a) ++ ?b) with (String "," (a ++ b)).
    cbn [scan_elements].
    rewrite (Hx p jx fuel _ Hp Hjx) by (reflexivity || lia).
    cbn [skip_space]. change (isSpace ",") with false. cbv iota.
    change (Ascii.eqb "," ",") with true. cbv iota.
    rewrite (IH ltac:(discriminate) _ _ fuel (acc ++ [jx])%list rest Hptl Hjtl)
      by lia.
    rewrite <- app_assoc. reflexivity.
Qed.

Lemma scan_members_encoded fields :
  Forall (λ kv, reads_back (snd kv)) fields → fields ≠ [] →
  ∀ parts ms fuel acc rest,
    mapM (λ kv, let '(k, x) := kv in
                out ← encode_value false x;
                Some (encode_string false k ++ ":" ++ out)) fields
    = Some parts →
    mapM (λ kv, let '(k, x) := kv in
                j ← json_of_value x; Some (utf8_repaired k, j)) fields
    = Some ms →
    (String.length (String.concat "," parts) + 1 < fuel)%nat →
    scan_members fuel (String.concat "," parts ++ String "}" rest) acc
    = Got (JObject (acc ++ ms)) rest.
Proof.
  induction 1 as [|[k x] fields Hx _ IH]; [done |]. intros _.
  intros parts ms fuel acc rest
    (p & ptl & Hp & Hptl & ->)%mapM_cons_inv
    (m & mtl & Hm & Hmtl & ->)%mapM_cons_inv Hfuel.
  cbn [snd] in Hx.
  destruct (encode_value false x) as [o|] eqn:Ho; [| discriminate].
  destruct (json_of_value x) as [jx|] eqn:Hjx; [| discriminate].
  injection Hp as <-. injection Hm as <-.
  destruct fuel as [|fuel]; [lia |].
  assert (Hstep : ∀ t,
    (String.length o < fuel)%nat → delimited t = true →
    scan_members (S fuel) ((encode_string false k ++ ":" ++ o) ++ t) acc
    = match skip_space t with
      | "" => More
      | String d r =>
          if Ascii.eqb d ","
          then scan_members fuel r (acc ++ [(utf8_repaired k, jx)])
          else if Ascii.eqb d "}"
          then Got (JObject (acc ++ [(utf8_repaired k, jx)])) r
          else Bad
      end).
  { intros t Hlen Ht. rewrite member_shape. cbn [scan_members skip_space].
    change (isSpace dquote) with false. cbv iota.
    change (Ascii.eqb dquote dquote) with true. cbv iota.
    rewrite scan_chars_encode_bytes. cbn [skip_space].
    change (isSpace ":") with false. cbv iota.
    change (Ascii.eqb ":" ":") with true. cbv iota.
    rewrite (Hx o jx fuel t Ho Hjx Hlen Ht). reflexivity. }
  destruct fields as [|y fields].
  - apply mapM_nil_inv in Hptl as ->. apply mapM_nil_inv in Hmtl as ->.
    cbn [String.concat] in *.
    rewrite !length_append in Hfuel.
    rewrite Hstep by (reflexivity || lia). reflexivity.
  - destruct (mapM_cons_inv _ _ _ _ Hptl) as (q & ptl' & _ & _ & ->).
    change (String.concat "," (?a :: q :: ptl'))
      with (a ++ "," ++ String.concat "," (q :: ptl')) in *.
    rewrite !length_append in Hfuel. cbn [String.length] in Hfuel.
    rewrite (append_assoc (encode_string false k ++ ":" ++ o)).
    change (("," ++ ?a) ++ ?b) with (String "," (a ++ b)).
    rewrite Hstep by (reflexivity || lia).
    cbn [skip_space]. change (isSpace ",") with false. cbv iota.
    change (Ascii.eqb "," ",") with true. cbv iota.
    rewrite (IH ltac:(discriminate) _ _ fuel
               (acc ++ [(utf8_repaired k, jx)])%list rest Hptl Hmtl) by lia.
    rewrite <- app_assoc. reflexivity.
Qed.

(** The scanner reads the encoding of a value of plain data back as that
    value. *)
Lemma scan_value_encoded v : reads_back v.
Proof.
  induction v as [| b | n | s | items IH | fields IH | text |]
    using gvalue_nested_ind;
    intros out j fuel rest Hout Hj Hfuel Hrest;
    cbn [encode_value json_of_value] in Hout, Hj; try discriminate.
  - injection Hout as <-. injection Hj as <-.
    destruct fuel as [|fuel]; [cbn in Hfuel; lia | reflexivity].
  - injection Hout as <-. injection Hj as <-.
    destruct fuel as [|fuel]; [cbn in Hfuel; lia |].
    destruct b; reflexivity.
  - injection Hout as <-. injection Hj as <-.
    destruct fuel as [|fuel]; [lia |].
    rewrite scan_value_number
      by apply starts_number_app, starts_number_decimal.
    rewrite scan_number_decimal by exact Hrest. reflexivity.
  - injection Hout as <-. injection Hj as <-.
    destruct fuel as [|fuel]; [lia |].
    unfold encode_string. rewrite append_cons, append_assoc, append_cons.
    change ("" ++ rest) with rest.
    cbn [scan_value skip_space].
    change (isSpace dquote) with false. cbv iota.
    change (Ascii.eqb dquote "{") with false. cbv iota.
    change (Ascii.eqb dquote "[") with false. cbv iota.
    change (Ascii.eqb dquote dquote) with true. cbv iota.
    rewrite scan_chars_encode_bytes. reflexivity.
  - destruct (mapM (encode_value false) items) as [parts|] eqn:Hparts;
      [| discriminate].
    destruct (mapM json_of_value items) as [js|] eqn:Hjs; [| discriminate].
    injection Hout as <-. injection Hj as <-.
    destruct fuel as [|fuel]; [lia |].
    change (("[" ++ ?a) ++ ?b) with (String "[" (a ++ b)).
    rewrite append_assoc. change ("]" ++ rest) with (String "]" rest).
    change ("[" ++ ?a) with (String "[" a) in Hfuel.
    cbn [String.length] in Hfuel. rewrite length_append in Hfuel.
    cbn [String.length] in Hfuel.
    destruct items as [|x items].
    + apply mapM_nil_inv in Hparts as ->. apply mapM_nil_inv in Hjs as ->.
      reflexivity.
    + rewrite scan_value_array.
      * apply (scan_elements_encoded (x :: items) IH ltac:(discriminate)
                 parts js fuel [] rest Hparts Hjs). lia.
      * destruct (mapM_cons_inv _ _ _ _ Hparts) as (p & ptl & Hp & _ & ->).
        destruct (mapM_cons_inv _ _ _ _ Hjs) as (jx & jtl & Hjx & _ & _).
        apply head_ok_app.
        pose proof (encode_value_head _ _ _ Hp Hjx) as Hhead.
        destruct ptl; [exact Hhead |]. apply head_ok_app. exact Hhead.
  - match type of Hout with
    | context [mapM ?f fields] =>
        destruct (mapM f fields) as [parts|] eqn:Hparts; [| discriminate]
    end.
    match type of Hj with
    | context [mapM ?f fields] =>
        destruct (mapM f fields) as [ms|] eqn:Hms; [| discriminate]
    end.
    injection Hout as <-. injection Hj as <-.
    destruct fuel as [|fuel]; [lia |].
    change (("{" ++ ?a) ++ ?b) with (String "{" (a ++ b)).
    rewrite append_assoc. change ("}" ++ rest) with (String "}" rest).
    change ("{" ++ ?a) with (String "{" a) in Hfuel.
    cbn [String.length] in Hfuel. rewrite length_append in Hfuel.
    cbn [String.length] in Hfuel.
    destruct fields as [|[k x] fields].
    + apply mapM_nil_inv in Hparts as ->. apply mapM_nil_inv in Hms as ->.
      reflexivity.
    + pose proof (scan_members_encoded ((k, x) :: fields) IH
                    ltac:(discriminate) parts ms fuel [] rest Hparts Hms
                    ltac:(lia)) as Hscan.
      destruct (mapM_cons_inv _ _ _ _ Hparts) as (p & ptl & Hp & _ & ->).
      destruct (encode_value false x) as [o|]; [| discriminate].
      injection Hp as <-.
      assert (Hshape : ∃ t,
        String.concat "," ((encode_string false k ++ ":" ++ o) :: ptl)
        ++ String "}" rest = String dquote t).
      { destruct ptl; eexists; cbn [String.concat]; unfold encode_string;
          rewrite !append_cons; reflexivity. }
      destruct Hshape as [t Ht]. rewrite Ht in *.
      rewrite scan_value_object. exact Hscan.
Qed.

(** The encoder's output, with the newline that [Encode] adds, is a JSON
    text that stands for the value. *)
Lemma reference_scan_encoded v out j :
  encode_value false v = Some out → json_of_value v = Some j →
  reference_scan (out ++ newline) = ScanValue j newline.
Proof.
  intros Hout Hj. unfold reference_scan.
  rewrite (scan_value_encoded v out j _ newline Hout Hj);
    [reflexivity | | reflexivity].
  rewrite length_append. lia.
Qed.

(** *** The data a reader gets and its HTML characters *)

Lemma keep_html_utf8_repaired s : keep_html (utf8_repaired s) = keep_html s.
Proof.
  remember (String.length s) as n eqn:Hn.
  revert s Hn. induction n as [n IH] using lt_wf_ind. intros s Hn.
  destruct s as [|b r1]; [reflexivity |].
  cbn [utf8_repaired].
  assert (IH1 : keep_html (utf8_repaired r1) = keep_html r1)
    by (eapply IH; [| reflexivity]; subst n; cbn; lia).
  destruct (nat_of_ascii b <? 128)%nat eqn:Hb.
  { cbn [keep_html]. rewrite IH1. reflexivity. }
  assert (Hnb : is_html b = false).
  { apply high_byte_not_html. apply Nat.ltb_ge in Hb. apply Nat.leb_le. lia. }
  assert (Hbad : keep_html (replaced ++ utf8_repaired r1)
                 = keep_html (String b r1)).
  { rewrite keep_html_prefix by reflexivity.
    cbn [keep_html]. rewrite Hnb. exact IH1. }
  destruct (rune_size b) as [|[|[|[|[|k]]]]]; try exact Hbad.
  - destruct r1 as [|c1 r2]; [exact Hbad |].
    destruct (second_ok b c1) eqn:H1; [| exact Hbad].
    cbn [keep_html]. rewrite Hnb, (second_ok_not_html _ _ H1).
    eapply IH; [| reflexivity]. subst n; cbn; lia.
  - destruct r1 as [|c1 [|c2 r3]]; try exact Hbad.
    destruct (second_ok b c1) eqn:H1; [| exact Hbad].
    destruct (continuation c2) eqn:H2; [| exact Hbad].
    cbn [andb keep_html].
    rewrite Hnb, (second_ok_not_html _ _ H1), (continuation_not_html _ H2).
    eapply IH; [| reflexivity]. subst n; cbn; lia.
  - destruct r1 as [|c1 [|c2 [|c3 r4]]]; try exact Hbad.
    destruct (second_ok b c1) eqn:H1; [| exact Hbad].
    destruct (continuation c2) eqn:H2; [| exact Hbad].
    destruct (continuation c3) eqn:H3; [| exact Hbad].
    cbn [keep_html andb]. rewrite Hnb, (second_ok_not_html _ _ H1),
      (continuation_not_html _ H2), (continuation_not_html _ H3).
    eapply IH; [| reflexivity]. subst n; cbn; lia.
Qed.

(** The [<], [>] and [&] of the data a reader gets are those of the
    value's strings and member names. *)
Lemma html_of_json_of_value v j :
  json_of_value v = Some j → html_of_json j = html_of_value v.
Proof.
  revert j. induction v as [| b | n | s | items IH | fields IH | text |]
    using gvalue_nested_ind; intros j Hj; cbn [json_of_value] in Hj;
    try discriminate.
  - injection Hj as <-. reflexivity.
  - injection Hj as <-. reflexivity.
  - injection Hj as <-. reflexivity.
  - injection Hj as <-. apply keep_html_utf8_repaired.
  - destruct (mapM json_of_value items) as [js|] eqn:Hjs; [| discriminate].
    injection Hj as <-. cbn [html_of_json html_of_value]. f_equal.
    apply mapM_Some in Hjs. clear -IH Hjs.
    induction Hjs as [|x jx items js Hx _ IHjs]; [reflexivity |].
    inversion IH as [|? ? Hx' IH']; subst.
    cbn [map]. f_equal; [apply Hx', Hx | apply IHjs, IH'].
  - match type of Hj with
    | context [mapM ?f fields] =>
        destruct (mapM f fields) as [ms|] eqn:Hms; [| discriminate]
    end.
    injection Hj as <-. cbn [html_of_json html_of_value]. f_equal.
    apply mapM_Some in Hms. clear -IH Hms.
    induction Hms as [|[k x] m fields ms Hx _ IHms]; [reflexivity |].
    inversion IH as [|? ? Hx' IH']; subst.
    cbn [map]. f_equal; [| apply IHms, IH'].
    destruct (json_of_value x) as [jx|] eqn:Hjx; [| discriminate].
    injection Hx as <-.
    rewrite keep_html_utf8_repaired. f_equal. apply Hx'. exact Hjx.
Qed.

Section Properties.
Context `{GoLib}.

(** ** Executor *)

Section Executor.
Context {T : Type} `{Unmarshal T}.
Implicit Types (c : Client) (ctx : Context) (req : Request) (v : target T).

(** X1: a failed dispatch under a context that is done ends in the
    context's error, whatever the transport reported; a response that
    came with the failure is dropped, and the target is as it was. *)
Lemma do_dispatch_error_ctx_done c ctx req v resp e ctxErr :
  httpClient c (WithContext req ctx) = (resp, Some e) →
  ctx_Err ctx = Some ctxErr →
  do c ctx req v = Returns (None, Some (LibError ctxErr), v).
Proof. intros Hd Hc. unfold do. rewrite Hd, Hc. reflexivity. Qed.

(** A failed dispatch under a live context is not returned from: the code
    goes on to the response, and a nil response makes it panic. *)
Lemma do_dispatch_error_nil_response c ctx req v e :
  httpClient c (WithContext req ctx) = (None, Some e) →
  ctx_Err ctx = None →
  do c ctx req v = Panics.
Proof. intros Hd Hc. unfold do. rewrite Hd, Hc. reflexivity. Qed.

(** When the dispatch succeeded the context is not looked at. *)
Lemma do_dispatched c ctx req v resp :
  httpClient c (WithContext req ctx) = (Some resp, None) →
  do c ctx req v =
    if (StatusCode resp >=? 300)%Z then
      Returns (None,
               Some (UpstreamError
                       (match rd_fail (Body resp) with
                        | None =>
                            json_Unmarshal_ErrorResponse (rd_data (Body resp))
                              {| ErrorResponse_Response := Some resp;
                                 Message := "" |}
                        | Some _ =>
                            {| ErrorResponse_Response := Some resp;
                               Message := "" |}
                        end)), v)
    else
      match v with
      | target_nil => Returns (Some {| Response_Response := resp |}, None, v)
      | target_Writer w =>
          Returns (Some {| Response_Response := resp |}, None,
                   target_Writer (fst (io_Copy w (Body resp))))
      | target_value x =>
          Returns (Some {| Response_Response := resp |},
                   match snd (Decoder_Decode (Body resp) x) with
                   | Some (LibError io_EOF) => None
                   | e => e
                   end,
                   target_value (fst (Decoder_Decode (Body resp) x)))
      end.
Proof.
  intros Hd. unfold do. rewrite Hd. cbn [ctx_Err].
  destruct (StatusCode resp >=? 300)%Z.
  - unfold ioutil_ReadAll. destruct (rd_fail (Body resp)); reflexivity.
  - destruct v as [|w|x]; [reflexivity| |].
    + destruct (io_Copy w (Body resp)); reflexivity.
    + destruct (Decoder_Decode (Body resp) x) as [x' [[[]|]|]]; reflexivity.
Qed.

(** Status 300 and above: no success value, and an ErrorResponse. *)
Lemma do_status_error c ctx req v resp :
  httpClient c (WithContext req ctx) = (Some resp, None) →
  (300 <= StatusCode resp)%Z →
  ∃ r, do c ctx req v = Returns (None, Some (UpstreamError r), v).
Proof.
  intros Hd Hs. rewrite (do_dispatched _ _ _ _ _ Hd).
  destruct (Z.geb_spec (StatusCode resp) 300); [eauto | lia].
Qed.

(** Status below 300: the response wrapper comes back, and the error is
    never an ErrorResponse made by [do]; it is nil unless decoding into
    the target failed. *)
Lemma do_status_success c ctx req v resp :
  httpClient c (WithContext req ctx) = (Some resp, None) →
  (StatusCode resp < 300)%Z →
  ∃ err v',
    do c ctx req v = Returns (Some {| Response_Response := resp |}, err, v')
    ∧ (err = None
       ∨ ∃ x, v = target_value x ∧ err = snd (Decoder_Decode (Body resp) x)).
Proof.
  intros Hd Hs. rewrite (do_dispatched _ _ _ _ _ Hd).
  destruct (Z.geb_spec (StatusCode resp) 300); [lia |].
  destruct v as [|w|x]; [eauto | eauto |].
  do 2 eexists. split; [reflexivity |].
  destruct (snd (Decoder_Decode (Body resp) x)) as [[[]|]|] eqn:E;
    first [left; reflexivity | right; exists x; rewrite E; split; reflexivity].
Qed.

(** *** The error body *)

Lemma store_member_Message e kv :
  Message (fst (store_member e kv)) = last_message [kv] (Message e).
Proof.
  destruct kv as [k j]. unfold last_message, store_member.
  cbn [fold_left fst snd].
  destruct (field_of_key k) as [[]|]; destruct j; try reflexivity;
    destruct (json_store_Response _ _); reflexivity.
Qed.

(** Members that do not address the field [Response] are all stored, and
    leave that field alone. *)
Lemma store_members_plain members e :
  Forall (λ kv, field_of_key (fst kv) ≠ Some field_Response) members →
  store_members members e
  = {| ErrorResponse_Response := ErrorResponse_Response e;
       Message := last_message members (Message e) |}.
Proof.
  intros Hm. revert e.
  induction Hm as [|[k j] members Hk _ IH]; intros e;
    [destruct e; reflexivity |].
  cbn [store_members]. unfold last_message. cbn [fold_left].
  unfold store_member. cbn [fst snd] in *.
  destruct (field_of_key k) as [[]|]; [congruence | |];
    destruct j; rewrite IH; reflexivity.
Qed.

(** In general the message is the one left by the members up to the one
    that stopped the decoding. *)
Lemma store_members_Message members e :
  ∃ n, Message (store_members members e)
       = last_message (take n members) (Message e).
Proof.
  revert e. induction members as [|kv members IH]; intros e.
  - exists 0%nat. reflexivity.
  - cbn [store_members].
    pose proof (store_member_Message e kv) as Hkv.
    destruct (store_member e kv) as [e' [err|]]; cbn [fst] in Hkv.
    + exists 1%nat. rewrite Hkv. destruct members; reflexivity.
    + destruct (IH e') as [n Hn]. exists (S n). rewrite Hn, Hkv. reflexivity.
Qed.

Lemma store_members_app pre post e :
  Forall (λ kv, field_of_key (fst kv) ≠ Some field_Response) pre →
  store_members (pre ++ post) e = store_members post (store_members pre e).
Proof.
  intros Hm. revert e.
  induction Hm as [|[k j] pre Hk _ IH]; intros e; [reflexivity |].
  cbn [app store_members]. unfold store_member. cbn [fst snd] in *.
  destruct (field_of_key k) as [[]|]; [congruence | |];
    destruct j; apply IH.
Qed.

Lemma last_message_app pre post m :
  last_message (pre ++ post) m = last_message post (last_message pre m).
Proof. unfold last_message. apply fold_left_app. Qed.

Lemma last_message_none members m :
  Forall (λ kv, match field_of_key (fst kv), snd kv with
                | Some field_Message, JString _ => False
                | _, _ => True
                end) members →
  last_message members m = m.
Proof.
  intros Hm. revert m. unfold last_message.
  induction Hm as [|[k j] members Hk _ IH]; intros m; [reflexivity |].
  cbn [fold_left]. rewrite IH. cbn [fst snd] in *.
  destruct (field_of_key k) as [[]|]; try reflexivity.
  destruct j; try reflexivity. contradiction.
Qed.

(** X4: the error path in full.  The ErrorResponse carries no message when
    the body cannot be read or is not one JSON text (an empty body is
    not).  When the body is an object, the message is the last string
    given for [error_description] by the members that were decoded: all of
    them when none addresses the field [Response], and the raw response
    then stays in place; in general those up to a member under [Response]
    on which the decoding stopped. *)
Lemma do_error_response c ctx req v resp :
  httpClient c (WithContext req ctx) = (Some resp, None) →
  (300 <= StatusCode resp)%Z →
  ∃ r,
    do c ctx req v = Returns (None, Some (UpstreamError r), v)
    ∧ (rd_fail (Body resp) ≠ None ∨ checkValid (rd_data (Body resp)) = None →
       r = {| ErrorResponse_Response := Some resp; Message := "" |})
    ∧ (∀ members,
         rd_fail (Body resp) = None →
         checkValid (rd_data (Body resp)) = Some (JObject members) →
         (∃ n, Message r = last_message (take n members) "")
         ∧ (Forall (λ kv, field_of_key (fst kv) ≠ Some field_Response)
              members →
            Message r = last_message members ""
            ∧ ErrorResponse_Response r = Some resp)).
Proof.
  intros Hd Hs. rewrite (do_dispatched _ _ _ _ _ Hd).
  destruct (Z.geb_spec (StatusCode resp) 300); [| lia].
  eexists. split; [reflexivity |]. split.
  - intros [Hr | Hp].
    + destruct (rd_fail (Body resp)); [reflexivity | congruence].
    + unfold json_Unmarshal_ErrorResponse. rewrite Hp.
      destruct (rd_fail (Body resp)); reflexivity.
  - intros members Hr Hp. rewrite Hr.
    unfold json_Unmarshal_ErrorResponse. rewrite Hp. split.
    + apply store_members_Message.
    + intros Hm. rewrite (store_members_plain _ _ Hm). split; reflexivity.
Qed.

Lemma checkValid_empty : checkValid "" = None.
Proof. reflexivity. Qed.

(** A single member [error_description] with a string gives the message. *)
Lemma do_error_description c ctx req v resp msg :
  httpClient c (WithContext req ctx) = (Some resp, None) →
  (300 <= StatusCode resp)%Z →
  rd_fail (Body resp) = None →
  checkValid (rd_data (Body resp))
    = Some (JObject [("error_description", JString msg)]) →
  do c ctx req v =
    Returns (None,
             Some (UpstreamError
                     {| ErrorResponse_Response := Some resp;
                        Message := msg |}), v).
Proof.
  intros Hd Hs Hr Hp. rewrite (do_dispatched _ _ _ _ _ Hd).
  destruct (Z.geb_spec (StatusCode resp) 300); [| lia].
  rewrite Hr. unfold json_Unmarshal_ErrorResponse. rewrite Hp.
  reflexivity.
Qed.

(** A member [Response] holding null clears the pointer to the raw
    response, wherever it stands among members that leave the field
    alone. *)
Lemma store_members_Response_null pre post e :
  Forall (λ kv, field_of_key (fst kv) ≠ Some field_Response) pre →
  Forall (λ kv, field_of_key (fst kv) ≠ Some field_Response) post →
  ErrorResponse_Response
    (store_members (pre ++ ("Response", JNull) :: post) e) = None.
Proof.
  intros Hpre Hpost. rewrite (store_members_app _ _ _ Hpre).
  cbn [store_members]. unfold store_member at 1. cbn [fst snd].
  change (field_of_key "Response") with (Some field_Response).
  cbv beta iota. rewrite (store_members_plain _ _ Hpost). reflexivity.
Qed.

(** *** Decoding the success body *)

(** Unless the target type reports it of its own, io.EOF comes out of
    Decode only for an input of white space that ends cleanly, and then
    the target is as it was. *)
Lemma Decoder_Decode_EOF (body : Reader) (x x' : T) :
  (∀ j y, snd (json_store j y) ≠ Some (LibError io_EOF)) →
  Decoder_Decode body x = (x', Some (LibError io_EOF)) →
  blank (rd_data body) = true ∧ rd_fail body = None ∧ x' = x.
Proof.
  intros Hstore. unfold Decoder_Decode, reader_error.
  destruct (blank (rd_data body)).
  - destruct (rd_fail body); intros [= <-]; auto.
  - destruct (json_scan (rd_data body)) as [j rest| |].
    + destruct rest, (rd_fail body), (is_composite j); try discriminate;
        intros E; exfalso; apply (Hstore j x); rewrite E; reflexivity.
    + discriminate.
    + destruct (rd_fail body); discriminate.
Qed.

(** C7: a success-status response with an empty body and a decode target
    that is neither nil nor a writer: [do] returns the response wrapper
    with a nil error, and the target is exactly as it was. *)
Theorem do_empty_body_keeps_target c ctx req resp (x : T) :
  httpClient c (WithContext req ctx) = (Some resp, None) →
  (StatusCode resp < 300)%Z →
  Body resp = {| rd_data := ""; rd_fail := None |} →
  do c ctx req (target_value x)
  = Returns (Some {| Response_Response := resp |}, None, target_value x).
Proof.
  intros Hd Hs Hb. rewrite (do_dispatched _ _ _ _ _ Hd).
  destruct (Z.geb_spec (StatusCode resp) 300); [lia |].
  unfold Decoder_Decode. rewrite Hb. reflexivity.
Qed.

(** C8: a success-status response whose body fails to decode into a
    target that is neither nil nor a writer, with an error other than the
    io.EOF of an empty body: [do] returns that error, together with a
    response wrapper that is not nil, and the target as decoding left
    it. *)
Theorem do_decode_failure_surfaces c ctx req resp (x x' : T) e :
  httpClient c (WithContext req ctx) = (Some resp, None) →
  (StatusCode resp < 300)%Z →
  rd_data (Body resp) ≠ "" →
  Decoder_Decode (Body resp) x = (x', Some e) →
  e ≠ LibError io_EOF →
  do c ctx req (target_value x)
  = Returns (Some {| Response_Response := resp |}, Some e, target_value x').
Proof.
  intros Hd Hs _ Hdec He. rewrite (do_dispatched _ _ _ _ _ Hd).
  destruct (Z.geb_spec (StatusCode resp) 300); [lia |].
  rewrite Hdec. cbn [fst snd].
  destruct e as [[]|]; try reflexivity. congruence.
Qed.

End Executor.

(** ** Request Builder *)

Section Builder.
Variable G : Acquirer.
Implicit Types (c : Client) (h : headers) (body : option gvalue).

(** http.NewRequest returns a request around the entity it was given and
    a nil error, or no request and an error. *)
Lemma http_NewRequest_cases method url entity :
  (∃ req, http_NewRequest method url entity = (Some req, None)
          ∧ req_Body req = entity ∧ Header req = ∅)
  ∨ (∃ err, http_NewRequest method url entity = (None, Some err)).
Proof.
  unfold http_NewRequest. repeat case_match; eauto.
Qed.

(** The header step on a nil request, as the two branches with a body
    leave it when http.NewRequest fails: the first [Header.Set] that runs
    dereferences nil, and with a body one always runs. *)
Lemma newRequest_headers_nil c b h isAdminRequest :
  newRequest_headers G c (Some b) h isAdminRequest None = panicked [].
Proof.
  unfold newRequest_headers.
  destruct (String.eqb (contentType h) ""); reflexivity.
Qed.

(** Without the admin flag the header step returns the request, with the
    body it was given, and asks for no token. *)
Lemma newRequest_headers_plain c body h req :
  ∃ req',
    newRequest_headers G c body h false (Some req)
    = returned [] (Some req') None
    ∧ req_Body req' = req_Body req.
Proof.
  unfold newRequest_headers.
  destruct (negb (String.eqb (contentType h) ""));
    destruct (bool_decide (body ≠ None) && String.eqb (contentType h) "");
    destruct (negb (String.eqb (authorization h) ""));
    (eexists; split; [reflexivity | reflexivity]).
Qed.

(** With the admin flag the header step assembles one grant request from
    the configuration, hands it to the acquirer under the background
    context, and ends as the acquirer does. *)
Lemma newRequest_headers_admin c body h req :
  ∃ g req',
    (GrantType g
     = if isConfidential c && isServiceAccount c
       then clientGrant else passwordGrant)
    ∧ Scope g = (if hasOfflineAccess c then offlineScope else "")
    ∧ (Username g
       = if isConfidential c && isServiceAccount c then "" else adminAccount c)
    ∧ (Password g
       = if isConfidential c && isServiceAccount c then "" else adminPass c)
    ∧ req_Body req' = req_Body req
    ∧ newRequest_headers G c body h true (Some req)
      = {| nr_grants := [g];
           nr_outcome :=
             match G c context_Background g with
             | Panics => Panics
             | Returns (_, Some err) => Returns (None, Some err)
             | Returns (None, None) => Panics
             | Returns (Some token, None) =>
                 Returns
                   (Some (Header_Set "Authorization"
                            ("Bearer " ++ AccessToken token) req'), None)
             end |}.
Proof.
  unfold newRequest_headers, returned, panicked.
  destruct (negb (String.eqb (contentType h) ""));
    destruct (bool_decide (body ≠ None) && String.eqb (contentType h) "");
    destruct (negb (String.eqb (authorization h) ""));
    cbn [mbind outcome_bind Request_Header_Set];
    destruct (hasOfflineAccess c), (isConfidential c), (isServiceAccount c);
    cbn [andb GrantType Scope Username Password];
    lazymatch goal with
    | |- context [G c context_Background ?g] => exists g
    end;
    lazymatch goal with
    | |- context [Header_Set "Authorization" ("Bearer " ++ _) ?r] => exists r
    end;
    (split_and!; try reflexivity;
     lazymatch goal with
     | |- context [G c context_Background ?g] =>
         destruct (G c context_Background g) as [[[t|] [e|]]|]; reflexivity
     end).
Qed.

(** The calls of [newRequest] sorted by how far they get, the same with
    and without the admin flag: a panic or an error before the header
    step, or a request built by http.NewRequest around the encoded body
    and handed to the header and token steps. *)
Lemma newRequest_built c method path body h :
  (∀ adm, newRequest G c method path body h adm = panicked [])
  ∨ (∃ err, ∀ adm,
       newRequest G c method path body h adm = returned [] None (Some err))
  ∨ (∃ u entity req,
       http_NewRequest method u entity = (Some req, None)
       ∧ match body with
         | None => entity = None
         | Some b =>
             if String.eqb (contentType h) formEncoded
             then query_Values b = inl (default "" entity) ∧ entity ≠ None
             else Encoder_Encode false b = inl (default "" entity)
                  ∧ entity ≠ None
         end
       ∧ ∀ adm, newRequest G c method path body h adm
                = newRequest_headers G c body h adm (Some req)).
Proof.
  unfold newRequest.
  destruct (URL_Parse (baseURL c) path) as [[u|err]|]; [| eauto | eauto].
  destruct body as [b|].
  - destruct (String.eqb (contentType h) formEncoded) eqn:Hct.
    + destruct (query_Values b) as [form|err] eqn:Hq; [| eauto].
      destruct (http_NewRequest_cases method u (Some form))
        as [(req & Hn & _) | (err & Hn)]; rewrite Hn.
      * right; right. exists u, (Some form), req.
        split_and!; [exact Hn | reflexivity | discriminate | reflexivity].
      * left. intros adm. apply newRequest_headers_nil.
    + destruct (Encoder_Encode false b) as [buf|err] eqn:He; [| eauto].
      destruct (http_NewRequest_cases method u (Some buf))
        as [(req & Hn & _) | (err & Hn)]; rewrite Hn.
      * right; right. exists u, (Some buf), req.
        split_and!; [exact Hn | reflexivity | discriminate | reflexivity].
      * left. intros adm. apply newRequest_headers_nil.
  - destruct (http_NewRequest_cases method u None)
      as [(req & Hn & _) | (err & Hn)]; rewrite Hn.
    + right; right. exists u, None, req. auto.
    + eauto.
Qed.

Lemma newRequest_inv c method path body h isAdminRequest
    (P : NewRequestRun → Prop) :
  P (panicked []) →
  (∀ err, P (returned [] None (Some err))) →
  (∀ u entity req,
     http_NewRequest method u entity = (Some req, None) →
     match body with
     | None => entity = None
     | Some b =>
         if String.eqb (contentType h) formEncoded
         then query_Values b = inl (default "" entity) ∧ entity ≠ None
         else Encoder_Encode false b = inl (default "" entity) ∧ entity ≠ None
     end →
     P (newRequest_headers G c body h isAdminRequest (Some req))) →
  P (newRequest G c method path body h isAdminRequest).
Proof.
  intros HPanic HErr HReq.
  destruct (newRequest_built c method path body h)
    as [-> | [(err & ->) | (u & entity & req & Hn & He & ->)]]; eauto.
Qed.

(** What an admin-flagged call hands to the acquirer, if anything: the
    one grant request assembled from the configuration. *)
Lemma newRequest_admin_grant c method path body h g :
  g ∈ nr_grants (newRequest G c method path body h true) →
  nr_grants (newRequest G c method path body h true) = [g]
  ∧ (GrantType g
     = if isConfidential c && isServiceAccount c
       then clientGrant else passwordGrant)
  ∧ Scope g = (if hasOfflineAccess c then offlineScope else "")
  ∧ (Username g
     = if isConfidential c && isServiceAccount c then "" else adminAccount c)
  ∧ (Password g
     = if isConfidential c && isServiceAccount c then "" else adminPass c).
Proof.
  apply newRequest_inv.
  - intros []%elem_of_nil.
  - intros err []%elem_of_nil.
  - intros u entity req _ _.
    destruct (newRequest_headers_admin c body h req)
      as (g0 & req' & Hgt & Hs & Hu & Hp & _ & ->).
    cbn [nr_grants]. intros ->%list_elem_of_singleton. auto.
Qed.




(** C6: a body that is not nil, under a content type other than
    form-urlencoded: the entity of the request that [newRequest] returns
    is the encoding of the body with HTML escaping off, followed by the
    encoder's newline, and the [<], [>] and [&] in it are exactly those of
    the body's strings and member names and of the texts its MarshalJSON
    methods wrote.  For a body of plain data the entity is a JSON text
    that a reader takes for that data, and every [<], [>] and [&] of the
    data is in the text as it is: none is written as an escape. *)
Theorem json_body_keeps_html_characters c method path b h isAdminRequest req :
  contentType h ≠ formEncoded →
  nr_outcome (newRequest G c method path (Some b) h isAdminRequest)
  = Returns (Some req, None) →
  ∃ out,
    encode_value false b = Some out
    ∧ req_Body req = Some (out ++ newline)
    ∧ keep_html out = html_of_value b
    ∧ ∀ j, json_of_value b = Some j →
           reference_scan (out ++ newline) = ScanValue j newline
           ∧ keep_html out = html_of_json j.
Proof.
  intros Hct%String.eqb_neq. apply newRequest_inv; [discriminate.. |].
  intros u entity req0 Hn. rewrite Hct.
  destruct (http_NewRequest_cases method u entity)
    as [(req1 & Hn1 & Hbody & _) | (err & Hn1)]; rewrite Hn1 in Hn;
    [injection Hn as -> | discriminate].
  intros [Henc Hentity]. destruct entity as [buf|]; [clear Hentity | done].
  cbn [default] in Henc. unfold Encoder_Encode in Henc.
  destruct (encode_value false b) as [out|] eqn:Hout; [| discriminate].
  injection Henc as <-.
  assert (Hreq : req_Body req = Some (out ++ newline) →
                 ∃ out0, Some out = Some out0
                         ∧ req_Body req = Some (out0 ++ newline)
                         ∧ keep_html out0 = html_of_value b
                         ∧ ∀ j, json_of_value b = Some j →
                                reference_scan (out0 ++ newline)
                                = ScanValue j newline
                                ∧ keep_html out0 = html_of_json j).
  { intros Hb. exists out.
    split; [reflexivity |]. split; [exact Hb |].
    split; [apply keep_html_encode_value, Hout |].
    intros j Hj. split; [apply (reference_scan_encoded b), Hj; exact Hout |].
    rewrite (html_of_json_of_value _ _ Hj).
    apply keep_html_encode_value, Hout. }
  destruct isAdminRequest.
  - destruct (newRequest_headers_admin c (Some b) h req0)
      as (g0 & req' & _ & _ & _ & _ & Hb' & ->).
    cbn [nr_outcome].
    destruct (G c context_Background g0) as [[[t|] [e|]]|]; try discriminate.
    intros [= <-]. apply Hreq. cbn [Header_Set req_Body]. congruence.
  - destruct (newRequest_headers_plain c (Some b) h req0) as (req' & -> & Hb').
    cbn [nr_outcome returned]. intros [= <-]. apply Hreq. congruence.
Qed.

(** The acquirer plays no part in a call without the admin flag: this is
    where the recursion through the Token Acquirer ends. *)
Lemma newRequest_plain_any_acquirer (G' : Acquirer) c method path body h :
  newRequest G c method path body h false
  = newRequest G' c method path body h false.
Proof. reflexivity. Qed.

(** An admin-flagged call for which the request itself can be built makes
    exactly one token acquisition. *)
Lemma newRequest_admin_acquires_once c method path body h req :
  nr_outcome (newRequest G c method path body h false)
  = Returns (Some req, None) →
  ∃ g, nr_grants (newRequest G c method path body h true) = [g].
Proof.
  destruct (newRequest_built c method path body h)
    as [Hrun | [(err & Hrun) | (u & entity & req0 & _ & _ & Hrun)]];
    rewrite !Hrun; try discriminate.
  intros _.
  destruct (newRequest_headers_admin c body h req0)
    as (g0 & req' & _ & _ & _ & _ & _ & ->). eauto.
Qed.

(** A call reads the configuration and never the [adminOIDC] slot: with
    an acquirer that leaves the slot alone, the slot makes no difference. *)
Lemma newRequest_adminOIDC_irrelevant c t method path body h isAdminRequest :
  (∀ ctx g, G (with_adminOIDC t c) ctx g = G c ctx g) →
  newRequest G (with_adminOIDC t c) method path body h isAdminRequest
  = newRequest G c method path body h isAdminRequest.
Proof.
  intros HG.
  assert (Hh : ∀ req,
    newRequest_headers G (with_adminOIDC t c) body h isAdminRequest req
    = newRequest_headers G c body h isAdminRequest req).
  { intros req. unfold newRequest_headers.
    cbn [with_adminOIDC hasOfflineAccess isConfidential isServiceAccount
         adminAccount adminPass].
    rewrite HG. reflexivity. }
  unfold newRequest. cbn [with_adminOIDC baseURL].
  destruct (URL_Parse (baseURL c) path) as [[u|err]|]; try reflexivity.
  destruct body as [b|];
    [ destruct (String.eqb (contentType h) formEncoded);
      [ destruct (query_Values b) | destruct (Encoder_Encode false b) ] |];
    try reflexivity;
    match goal with
    | |- context [http_NewRequest ?m ?u ?e] =>
        destruct (http_NewRequest m u e) as [req [err|]];
        first [apply Hh | reflexivity]
    end.
Qed.

End Builder.

(** C10: with the Token Acquirer in place, [newRequest] never reads the
    stored [adminOIDC] token: two clients that differ in that slot only
    give the same result on the same arguments, grant requests
    included; and an admin-flagged call whose request can be built
    makes one token acquisition of its own, whatever token is stored. *)
Theorem newRequest_never_reads_adminOIDC
    (token_method token_endpoint : string) `{Unmarshal OIDCToken}
    (c : Client) (t : option OIDCToken) (method path : string)
    (body : option gvalue) (h : headers) (isAdminRequest : bool) :
  let acquire := GetOIDCToken token_method token_endpoint in
  newRequest acquire (with_adminOIDC t c) method path body h isAdminRequest
  = newRequest acquire c method path body h isAdminRequest
  ∧ (∀ req,
       nr_outcome (newRequest acquire c method path body h false)
       = Returns (Some req, None) →
       ∃ g, nr_grants
              (newRequest acquire (with_adminOIDC t c) method path body h true)
            = [g]).
Proof.
  intros acquire.
  assert (Hsame : ∀ adm,
    newRequest acquire (with_adminOIDC t c) method path body h adm
    = newRequest acquire c method path body h adm)
    by (intros adm; apply newRequest_adminOIDC_irrelevant; reflexivity).
  split; [apply Hsame |].
  intros req Hreq. rewrite Hsame.
  eapply newRequest_admin_acquires_once, Hreq.
Qed.

End Properties.


(** ** The executor on concrete responses *)

(** C1: a dispatch that fails with no response while the context is
    live.  The code does not return the transport error: it falls out of
    the [if] to [defer resp.Body.Close()] and panics on the nil
    response. *)
Theorem do_transport_error_not_returned :
  @do reference_GoLib OIDCToken reference_Unmarshal_OIDCToken
    (example_client no_network) context_Background example_request target_nil
  = Panics.
Proof. reflexivity. Qed.

(** C2: status 400 with the body
    [{"error_description":"bad request","Response":null}].  The message is
    decoded, and the same decoding stores nil in the field [Response]:
    the ErrorResponse that [do] returns does not hold the raw response,
    and its [Error] method panics. *)
Theorem do_error_body_clears_Response :
  let body :=
    "{" ++ quoted "error_description" ++ ":" ++ quoted "bad request" ++ ","
        ++ quoted "Response" ++ ":null}" in
  let r := {| ErrorResponse_Response := None; Message := "bad request" |} in
  @do reference_GoLib OIDCToken reference_Unmarshal_OIDCToken
    (example_client (answering 400 (bytes body)))
    context_Background example_request target_nil
  = Returns (None, Some (UpstreamError r), target_nil)
  ∧ ErrorResponse_Error r = Panics.
Proof. split; vm_compute; reflexivity. Qed.

(** C5: status 200, and a writer whose [Write] fails.  [io.Copy] reports
    the failure and [do] drops it: the caller gets a nil error. *)
Theorem do_copy_error_dropped :
  let body := bytes "realm export" in
  snd (io_Copy full_disk body)
  = Some (LibError (errors_New "write: no space left on device"))
  ∧ @do reference_GoLib OIDCToken reference_Unmarshal_OIDCToken
      (example_client (answering 200 body))
      context_Background example_request (target_Writer full_disk)
    = Returns
        (Some {| Response_Response :=
                   {| StatusCode := 200; Body := body;
                      resp_Request := Some example_request |} |},
         None, target_Writer full_disk).
Proof. split; vm_compute; reflexivity. Qed.

Lemma do_empty_body_keeps_target_witness :
  @do reference_GoLib OIDCToken reference_Unmarshal_OIDCToken
    (example_client (answering 204 (bytes "")))
    context_Background example_request
    (target_value {| AccessToken := "kept" |})
  = Returns
      (Some {| Response_Response :=
                 {| StatusCode := 204; Body := bytes "";
                    resp_Request := Some example_request |} |},
       None, target_value {| AccessToken := "kept" |}).
Proof.
  apply (@do_empty_body_keeps_target reference_GoLib OIDCToken
           reference_Unmarshal_OIDCToken
           (example_client (answering 204 (bytes "")))
           context_Background example_request).
  - reflexivity.
  - simpl. lia.
  - reflexivity.
Defined.

Lemma do_decode_failure_surfaces_witness :
  @do reference_GoLib OIDCToken reference_Unmarshal_OIDCToken
    (example_client (answering 200 (bytes "<html>")))
    context_Background example_request
    (target_value {| AccessToken := "" |})
  = Returns
      (Some {| Response_Response :=
                 {| StatusCode := 200; Body := bytes "<html>";
                    resp_Request := Some example_request |} |},
       Some (LibError json_SyntaxError),
       target_value {| AccessToken := "" |}).
Proof.
  apply (@do_decode_failure_surfaces reference_GoLib OIDCToken
           reference_Unmarshal_OIDCToken
           (example_client (answering 200 (bytes "<html>")))
           context_Background example_request).
  - reflexivity.
  - simpl. lia.
  - simpl. discriminate.
  - vm_compute. reflexivity.
  - discriminate.
Defined.

(** C8, as the claim is worded, on a body of one space.  The body is not
    empty and decoding it fails, with io.EOF; [do] takes that for an empty
    body and returns a nil error. *)
Lemma do_blank_body_decode_failure_dropped :
  let body := bytes " " in
  let x := {| AccessToken := "kept" |} in
  rd_data body ≠ ""
  ∧ @Decoder_Decode reference_GoLib OIDCToken reference_Unmarshal_OIDCToken
      body x
    = (x, Some (LibError io_EOF))
  ∧ @do reference_GoLib OIDCToken reference_Unmarshal_OIDCToken
      (example_client (answering 200 body))
      context_Background example_request (target_value x)
    = Returns
        (Some {| Response_Response :=
                   {| StatusCode := 200; Body := body;
                      resp_Request := Some example_request |} |},
         None, target_value x).
Proof. cbv zeta. split_and!; [discriminate | reflexivity..]. Qed.

(** Status 400 with the body [{"error_description":"bad request"}], and
    status 500 with a body that is not JSON. *)
Example do_bad_request :
  let body := bytes ("{" ++ quoted "error_description" ++ ":"
                         ++ quoted "bad request" ++ "}") in
  @do reference_GoLib OIDCToken reference_Unmarshal_OIDCToken
    (example_client (answering 400 body))
    context_Background example_request target_nil
  = Returns
      (None,
       Some (UpstreamError
               {| ErrorResponse_Response :=
                    Some {| StatusCode := 400; Body := body;
                            resp_Request := Some example_request |};
                  Message := "bad request" |}),
       target_nil).
Proof. vm_compute. reflexivity. Qed.

Example do_server_error :
  let body := bytes "<html>Internal Server Error</html>" in
  @do reference_GoLib OIDCToken reference_Unmarshal_OIDCToken
    (example_client (answering 500 body))
    context_Background example_request target_nil
  = Returns
      (None,
       Some (UpstreamError
               {| ErrorResponse_Response :=
                    Some {| StatusCode := 500; Body := body;
                            resp_Request := Some example_request |};
                  Message := "" |}),
       target_nil).
Proof. vm_compute. reflexivity. Qed.

(** The boundary: 299 is a success and 300 an error, on the same body. *)
Example do_status_boundary :
  let run status :=
    @do reference_GoLib OIDCToken reference_Unmarshal_OIDCToken
      (example_client (answering status (bytes token_body)))
      context_Background example_request
      (target_value {| AccessToken := "" |}) in
  (∃ resp, run 299%Z = Returns (Some resp, None,
                                target_value {| AccessToken := "eyJh.bGci.OiJI" |}))
  ∧ (∃ r, run 300%Z = Returns (None, Some (UpstreamError r),
                               target_value {| AccessToken := "" |})).
Proof. split; eexists; vm_compute; reflexivity. Qed.

(** ** The request builder on concrete calls *)




Lemma json_body_keeps_html_characters_witness :
  let body := VStruct [("name", VString "R&D <ops>")] in
  let text := "{" ++ quoted "name" ++ ":" ++ quoted "R&D <ops>" ++ "}" in
  ∃ out,
    encode_value false body = Some out
    ∧ Some (text ++ newline) = Some (out ++ newline)
    ∧ keep_html out = "&<>"
    ∧ reference_scan (out ++ newline)
      = ScanValue (JObject [("name", JString "R&D <ops>")]) newline.
Proof.
  intros body text.
  destruct (@json_body_keeps_html_characters reference_GoLib example_acquirer
              (example_client no_network) "POST" users_path body no_hints
              false
              {| Method := "POST";
                 req_URL := "https://sso.example/admin/realms/demo/users";
                 Header := <["Content-Type" := "application/json"]> ∅;
                 req_Body := Some (text ++ newline);
                 req_ctx := context_Background |}
              ltac:(discriminate) ltac:(vm_compute; reflexivity))
    as (out & Henc & Hbody & Hkeep & Hread).
  exists out. split; [exact Henc |]. split; [exact Hbody |].
  split; [exact Hkeep |]. exact (proj1 (Hread _ eq_refl)).
Defined.

(** C6, as the claim is worded, on a body whose type writes itself.  The
    entity is the text of the MarshalJSON method, copied: a reader takes
    it for the string [<b>], and neither [<] nor [>] is in it as it is;
    they are there as the escapes the method wrote. *)
Lemma json_body_marshaler_keeps_escapes :
  let entity := quoted "\u003cb\u003e" ++ newline in
  nr_outcome (newRequest (H := reference_GoLib) example_acquirer
                (example_client no_network) "POST" users_path
                (Some escaping_marshaler) no_hints false)
  = Returns
      (Some {| Method := "POST";
               req_URL := "https://sso.example/admin/realms/demo/users";
               Header := <["Content-Type" := "application/json"]> ∅;
               req_Body := Some entity;
               req_ctx := context_Background |}, None)
  ∧ reference_scan entity = ScanValue (JString "<b>") newline
  ∧ html_of_json (JString "<b>") = "<>"
  ∧ keep_html entity = "".
Proof. cbv zeta. split_and!; vm_compute; reflexivity. Qed.

Lemma newRequest_never_reads_adminOIDC_witness :
  let stale := Some {| AccessToken := "stale" |} in
  newRequest (H := reference_GoLib) example_acquirer
    (with_adminOIDC stale service_client) "GET" users_path None no_hints true
  = newRequest (H := reference_GoLib) example_acquirer
      service_client "GET" users_path None no_hints true
  ∧ ∃ g, nr_grants (newRequest (H := reference_GoLib) example_acquirer
                      (with_adminOIDC stale service_client)
                      "GET" users_path None no_hints true) = [g].
Proof.
  intros stale.
  pose proof (@newRequest_never_reads_adminOIDC reference_GoLib
                "POST" "protocol/openid-connect/token"
                reference_Unmarshal_OIDCToken service_client stale
                "GET" users_path None no_hints true) as Hw.
  cbv zeta in Hw. destruct Hw as [Hsame Honce].
  split; [exact Hsame |].
  apply (Honce {| Method := "GET";
                  req_URL := "https://sso.example/admin/realms/demo/users";
                  Header := ∅; req_Body := None;
                  req_ctx := context_Background |}).
  vm_compute. reflexivity.
Defined.

(** C10, as the claim is worded, on a path that url.Parse rejects.  The
    admin-flagged call returns the error of the URL before it gets to
    the token: it makes no acquisition. *)
Lemma newRequest_admin_call_without_acquisition :
  nr_grants (newRequest (H := reference_GoLib) example_acquirer
               service_client "GET" control_path None no_hints true)
  = []
  ∧ ∃ err,
      nr_outcome (newRequest (H := reference_GoLib) example_acquirer
                    service_client "GET" control_path None no_hints true)
      = Returns (None, Some err).
Proof. split; [reflexivity | eexists; reflexivity]. Qed.

(** The three constructors and the grant of an admin-flagged call. *)
Example construction_modes `{GoLib} (G : Acquirer) d url r off id secret
    account pass :
  let grants c :=
    nr_grants (newRequest G c "GET" users_path None no_hints true) in
  (∀ g, g ∈ grants (NewServiceAccount d url r off id secret) →
        GrantType g = clientGrant)
  ∧ (∀ g, g ∈ grants (NewConfidentialAdmin d url r off id secret account pass) →
          GrantType g = passwordGrant ∧ Username g = account
          ∧ Password g = pass)
  ∧ (∀ g, g ∈ grants (NewPublicAdmin d url r off id account pass) →
          GrantType g = passwordGrant ∧ Username g = account
          ∧ Password g = pass).
Proof.
  intros grants. split_and!; intros g Hg;
    apply newRequest_admin_grant in Hg as (_ & Hgt & _ & Hu & Hp);
    cbn in Hgt, Hu, Hp; auto.
Qed.

(** A body together with a method that http.NewRequest rejects: the
    error stays in the branch, the request is nil, and setting the
    content type panics.  Without a body the same error is returned. *)
Example newRequest_invalid_method :
  nr_outcome (newRequest (H := reference_GoLib) example_acquirer
                (example_client no_network) "GET users" users_path
                (Some (VString "x")) no_hints false)
  = Panics
  ∧ nr_outcome (newRequest (H := reference_GoLib) example_acquirer
                  (example_client no_network) "GET users" users_path
                  None no_hints false)
    = Returns (None, Some (LibError (errors_New "net/http: invalid method"))).
Proof. split; vm_compute; reflexivity. Qed.

(** * Further properties of the pipeline *)

Section Coverage.
Context `{GoLib}.

(** ** Executor *)

Section ExecutorCoverage.
Context {T : Type} `{Unmarshal T}.
Implicit Types (c : Client) (ctx : Context) (req : Request) (v : target T).

(** Past the context check, a call with a response goes on in the same
    way whether or not the dispatch reported an error. *)
Lemma do_continues c ctx req v resp err :
  httpClient c (WithContext req ctx) = (Some resp, err) →
  err = None ∨ ctx_Err ctx = None →
  do c ctx req v =
    if (StatusCode resp >=? 300)%Z then
      Returns (None,
               Some (UpstreamError
                       (match rd_fail (Body resp) with
                        | None =>
                            json_Unmarshal_ErrorResponse (rd_data (Body resp))
                              {| ErrorResponse_Response := Some resp;
                                 Message := "" |}
                        | Some _ =>
                            {| ErrorResponse_Response := Some resp;
                               Message := "" |}
                        end)), v)
    else
      match v with
      | target_nil => Returns (Some {| Response_Response := resp |}, err, v)
      | target_Writer w =>
          Returns (Some {| Response_Response := resp |}, err,
                   target_Writer (fst (io_Copy w (Body resp))))
      | target_value x =>
          Returns (Some {| Response_Response := resp |},
                   match snd (Decoder_Decode (Body resp) x) with
                   | Some (LibError io_EOF) | None => err
                   | Some decErr => Some decErr
                   end,
                   target_value (fst (Decoder_Decode (Body resp) x)))
      end.
Proof.
  intros Hd Hlive. unfold do. rewrite Hd.
  assert (Hctx : match err with Some _ => ctx_Err ctx | None => None end = None)
    by (destruct Hlive as [-> | ->]; [| destruct err]; reflexivity).
  rewrite Hctx.
  destruct (StatusCode resp >=? 300)%Z.
  - unfold ioutil_ReadAll. destruct (rd_fail (Body resp)); reflexivity.
  - destruct v as [|w|x]; [reflexivity| |].
    + destruct (io_Copy w (Body resp)); reflexivity.
    + destruct (Decoder_Decode (Body resp) x) as [x' [[[]|]|]]; reflexivity.
Qed.

(** X2: when the dispatch returns a response together with an error, the
    context is live and the status is 300 or more, the error of the
    dispatch is lost: the call returns an ErrorResponse, with an empty
    message if the body cannot be read. *)
Theorem do_error_status_masks_dispatch_error c ctx req v resp e :
  httpClient c (WithContext req ctx) = (Some resp, Some e) →
  ctx_Err ctx = None →
  (300 <= StatusCode resp)%Z →
  ∃ r,
    do c ctx req v = Returns (None, Some (UpstreamError r), v)
    ∧ (rd_fail (Body resp) ≠ None →
       r = {| ErrorResponse_Response := Some resp; Message := "" |}).
Proof.
  intros Hd Hc Hs. rewrite (do_continues _ _ _ _ _ _ Hd) by auto.
  destruct (Z.geb_spec (StatusCode resp) 300); [| lia].
  eexists. split; [reflexivity |].
  destruct (rd_fail (Body resp)); [reflexivity | congruence].
Qed.

(** X5: an error body that is JSON but not an object (an array, a string, a
    number, a literal) leaves the ErrorResponse as it was built: the raw
    response and an empty message. *)
Theorem do_error_body_not_an_object c ctx req v resp j :
  httpClient c (WithContext req ctx) = (Some resp, None) →
  (300 <= StatusCode resp)%Z →
  checkValid (rd_data (Body resp)) = Some j →
  (∀ members, j ≠ JObject members) →
  do c ctx req v
  = Returns (None,
             Some (UpstreamError
                     {| ErrorResponse_Response := Some resp; Message := "" |}),
             v).
Proof.
  intros Hd Hs Hj Hobj. rewrite (do_continues _ _ _ _ _ _ Hd) by auto.
  destruct (Z.geb_spec (StatusCode resp) 300); [| lia].
  unfold json_Unmarshal_ErrorResponse. rewrite Hj.
  destruct (rd_fail (Body resp)); [reflexivity |].
  destruct j; try reflexivity. exfalso. eapply Hobj. reflexivity.
Qed.

(** X6: on a success status a writer that accepts writes receives the bytes of
    the body after what it already holds, as they are, JSON or not, and
    the call reports no error. *)
Theorem do_streams_body_to_writer c ctx req resp w :
  httpClient c (WithContext req ctx) = (Some resp, None) →
  (StatusCode resp < 300)%Z →
  wr_fail w = None →
  do c ctx req (target_Writer w : target T)
  = Returns (Some {| Response_Response := resp |}, None,
             target_Writer
               {| wr_written := wr_written w ++ rd_data (Body resp);
                  wr_fail := None |}).
Proof.
  intros Hd Hs Hw. rewrite (do_continues _ _ _ _ _ _ Hd) by auto.
  destruct (Z.geb_spec (StatusCode resp) 300); [lia |].
  do 3 f_equal. unfold io_Copy. destruct w as [held fail]. cbn in *. subst fail.
  destruct (rd_data (Body resp)) as [|b data]; cbn [fst]; [| reflexivity].
  f_equal. induction held as [|a held IH]; [reflexivity |].
  change (String a held = String a (held ++ "")). f_equal. exact IH.
Qed.

(** X7: on a success status with a nil target the body is not looked at: the
    call returns the response wrapper and no error, whatever the body. *)
Theorem do_nil_target_ignores_body c ctx req resp :
  httpClient c (WithContext req ctx) = (Some resp, None) →
  (StatusCode resp < 300)%Z →
  do c ctx req (target_nil : target T)
  = Returns (Some {| Response_Response := resp |}, None, target_nil).
Proof.
  intros Hd Hs. rewrite (do_continues _ _ _ _ _ _ Hd) by auto.
  destruct (Z.geb_spec (StatusCode resp) 300); [lia | reflexivity].
Qed.

(** X8: [Error] on the ErrorResponse of an error status, when the body
    has no member that addresses the field [Response].  It reports the
    method and URL of the request behind the response, the status and the
    message if the response carries its request, and panics if the
    transport left the request of the response nil. *)
Theorem Error_of_error_status c ctx req v resp :
  httpClient c (WithContext req ctx) = (Some resp, None) →
  (300 <= StatusCode resp)%Z →
  match checkValid (rd_data (Body resp)) with
  | Some (JObject members) =>
      Forall (λ kv, field_of_key (fst kv) ≠ Some field_Response) members
  | _ => True
  end →
  ∃ r,
    do c ctx req v = Returns (None, Some (UpstreamError r), v)
    ∧ ErrorResponse_Error r
      = match resp_Request resp with
        | Some request =>
            Returns (Method request ++ " " ++ req_URL request ++ ": "
                     ++ decimal (StatusCode resp) ++ " " ++ Message r)
        | None => Panics
        end.
Proof.
  intros Hd Hs Hm. rewrite (do_continues _ _ _ _ _ _ Hd) by auto.
  destruct (Z.geb_spec (StatusCode resp) 300); [| lia].
  eexists. split; [reflexivity |].
  unfold ErrorResponse_Error.
  assert (Hr : ErrorResponse_Response
                 (json_Unmarshal_ErrorResponse (rd_data (Body resp))
                    {| ErrorResponse_Response := Some resp; Message := "" |})
               = Some resp).
  { unfold json_Unmarshal_ErrorResponse.
    destruct (checkValid (rd_data (Body resp))) as [[]|]; try reflexivity.
    rewrite (store_members_plain _ _ Hm). reflexivity. }
  destruct (rd_fail (Body resp)); [reflexivity |]. rewrite Hr. reflexivity.
Qed.

(** X9: for a request and a context that are not nil, and a transport,
    a response body and a decoding target whose methods return, the call
    panics in one situation only: the transport returned no response, and
    either no error or an error under a live context.  A nil request,
    which panics in [WithContext] before anything is sent, and a panic
    inside the transport or the target are outside this statement. *)
Theorem do_panics_iff c ctx req v :
  do c ctx req v = Panics
  ↔ ∃ err, httpClient c (WithContext req ctx) = (None, err)
           ∧ (err = None ∨ ctx_Err ctx = None).
Proof.
  split.
  - destruct (httpClient c (WithContext req ctx)) as [[resp|] err] eqn:Hd.
    + destruct err as [e|].
      * destruct (ctx_Err ctx) as [ctxErr|] eqn:Hc.
        -- rewrite (do_dispatch_error_ctx_done _ _ _ _ _ _ _ Hd Hc).
           discriminate.
        -- rewrite (do_continues _ _ _ _ _ _ Hd) by auto.
           repeat case_match; discriminate.
      * rewrite (do_continues _ _ _ _ _ _ Hd) by auto.
        repeat case_match; discriminate.
    + intros Hp. exists err. split; [reflexivity |].
      destruct err as [e|]; [| auto]. right.
      destruct (ctx_Err ctx) as [ctxErr|] eqn:Hc; [| reflexivity].
      rewrite (do_dispatch_error_ctx_done _ _ _ _ _ _ _ Hd Hc) in Hp.
      discriminate.
  - intros (err & Hd & Hlive). unfold do. rewrite Hd.
    destruct Hlive as [-> | ->]; [| destruct err]; reflexivity.
Qed.

(** X10: a call that returns no response wrapper returns an error, and leaves
    the target as the caller passed it. *)
Theorem do_no_response_means_error c ctx req v err v' :
  do c ctx req v = Returns (None, err, v') →
  err ≠ None ∧ v' = v.
Proof.
  destruct (httpClient c (WithContext req ctx)) as [[resp|] e] eqn:Hd.
  - destruct (ctx_Err ctx) as [ctxErr|] eqn:Hc; [destruct e as [e|] |].
    + rewrite (do_dispatch_error_ctx_done _ _ _ _ _ _ _ Hd Hc).
      intros [= <- <-]. auto.
    + rewrite (do_continues _ _ _ _ _ _ Hd) by auto.
      repeat case_match; intros [= <- <-]; auto.
    + rewrite (do_continues _ _ _ _ _ _ Hd) by auto.
      repeat case_match; intros [= <- <-]; auto.
  - unfold do. rewrite Hd.
    destruct e as [e|], (ctx_Err ctx) as [ctxErr|]; try discriminate.
    intros [= <- <-]. auto.
Qed.

End ExecutorCoverage.

(** ** Request Builder *)

Section BuilderCoverage.
Variable G : Acquirer.
Implicit Types (c : Client) (h : headers) (body : option gvalue).

(** The header and token steps on a request that exists.  The request
    they end with differs from the one they start with in its headers
    only: the content type and the authorization follow the hints, every
    other header is as it was; with the admin flag, the same request
    gets the bearer token on top. *)
Lemma newRequest_headers_shape c body h req :
  ∃ g req',
    newRequest_headers G c body h false (Some req)
    = returned [] (Some req') None
    ∧ newRequest_headers G c body h true (Some req)
      = {| nr_grants := [g];
           nr_outcome :=
             match G c context_Background g with
             | Panics => Panics
             | Returns (_, Some err) => Returns (None, Some err)
             | Returns (None, None) => Panics
             | Returns (Some token, None) =>
                 Returns
                   (Some (Header_Set "Authorization"
                            ("Bearer " ++ AccessToken token) req'), None)
             end |}
    ∧ Method req' = Method req ∧ req_URL req' = req_URL req
    ∧ req_Body req' = req_Body req ∧ req_ctx req' = req_ctx req
    ∧ Header req' !! "Content-Type"
      = (if String.eqb (contentType h) ""
         then match body with
              | Some _ => Some "application/json"
              | None => Header req !! "Content-Type"
              end
         else Some (contentType h))
    ∧ Header req' !! "Authorization"
      = (if String.eqb (authorization h) ""
         then Header req !! "Authorization"
         else Some (authorization h))
    ∧ (∀ k, k ≠ "Content-Type" → k ≠ "Authorization" →
            Header req' !! k = Header req !! k).
Proof.
  unfold newRequest_headers, returned, panicked.
  destruct (String.eqb (contentType h) "") eqn:Hct;
    destruct (String.eqb (authorization h) "") eqn:Hauth;
    destruct body as [b|];
    cbn [negb andb mbind outcome_bind Request_Header_Set];
    rewrite ?bool_decide_true, ?bool_decide_false by (try discriminate; auto);
    cbn [negb andb mbind outcome_bind Request_Header_Set];
    destruct (hasOfflineAccess c), (isConfidential c), (isServiceAccount c);
    cbn [andb GrantType Scope Username Password];
    lazymatch goal with
    | |- context [G c context_Background ?g] => exists g
    end;
    (eexists; split; [reflexivity |]; split;
     [ lazymatch goal with
       | |- context [G c context_Background ?g] =>
           destruct (G c context_Background g) as [[[t|] [e|]]|]; reflexivity
       end |]);
    cbn [Header_Set Method req_URL req_Body req_ctx Header];
    (split_and!; try reflexivity; try (intros k Hk1 Hk2);
     rewrite ?lookup_insert_ne by first [discriminate | congruence];
     rewrite ?lookup_insert_eq; reflexivity).
Qed.

(** http.NewRequest, when it returns a request. *)
Lemma http_NewRequest_request method url entity req :
  http_NewRequest method url entity = (Some req, None) →
  Method req = (if String.eqb method "" then "GET" else method)
  ∧ req_Body req = entity ∧ Header req = ∅
  ∧ req_ctx req = context_Background.
Proof.
  unfold http_NewRequest. repeat case_match; intros [= <-]; auto.
Qed.

(** The request a call returns, in terms of the request http.NewRequest
    built around the encoded body: the hints applied to it, and with the
    admin flag the bearer token of the one acquisition on top. *)
Lemma newRequest_returns_request c method path body h adm req :
  nr_outcome (newRequest G c method path body h adm)
  = Returns (Some req, None) →
  ∃ u entity req0 req',
    http_NewRequest method u entity = (Some req0, None)
    ∧ match body with
      | None => entity = None
      | Some b =>
          if String.eqb (contentType h) formEncoded
          then query_Values b = inl (default "" entity) ∧ entity ≠ None
          else Encoder_Encode false b = inl (default "" entity)
               ∧ entity ≠ None
      end
    ∧ newRequest_headers G c body h false (Some req0)
      = returned [] (Some req') None
    ∧ req_Body req' = entity
    ∧ Header req' !! "Content-Type"
      = (if String.eqb (contentType h) ""
         then match body with
              | Some _ => Some "application/json"
              | None => None
              end
         else Some (contentType h))
    ∧ Header req' !! "Authorization"
      = (if String.eqb (authorization h) ""
         then None else Some (authorization h))
    ∧ (∀ k, k ≠ "Content-Type" → k ≠ "Authorization" →
            Header req' !! k = None)
    ∧ (if adm
       then ∃ token, req = Header_Set "Authorization"
                             ("Bearer " ++ AccessToken token) req'
       else req = req').
Proof.
  destruct (newRequest_built G c method path body h)
    as [Hrun | [(err & Hrun) | (u & entity & req0 & Hn & He & Hrun)]];
    rewrite Hrun; try discriminate.
  destruct (http_NewRequest_request _ _ _ _ Hn) as (_ & Hb0 & Hh0 & _).
  destruct (newRequest_headers_shape c body h req0)
    as (g & req' & Hplain & Hadmin & _ & _ & Hb & _ & Hct & Hauth & Hk).
  rewrite Hh0 in Hct, Hauth. rewrite lookup_empty in Hct, Hauth.
  intros Hout. exists u, entity, req0, req'.
  split; [exact Hn |]. split; [exact He |]. split; [exact Hplain |].
  split; [congruence |]. split; [exact Hct |]. split; [exact Hauth |].
  split.
  - intros k Hk1 Hk2. rewrite (Hk k Hk1 Hk2), Hh0. apply lookup_empty.
  - destruct adm.
    + rewrite Hadmin in Hout. cbn [nr_outcome] in Hout.
      destruct (G c context_Background g) as [[[t|] [e|]]|]; try discriminate.
      injection Hout as <-. eauto.
    + rewrite Hplain in Hout. injection Hout as <-. reflexivity.
Qed.

(** X11: the content type of a returned request.  An explicit hint wins;
    without one, a body makes it application/json, and no body leaves the
    header out.  The admin flag makes no difference. *)
Theorem request_content_type c method path body h adm req :
  nr_outcome (newRequest G c method path body h adm)
  = Returns (Some req, None) →
  Header req !! "Content-Type"
  = (if String.eqb (contentType h) ""
     then match body with
          | Some _ => Some "application/json"
          | None => None
          end
     else Some (contentType h)).
Proof.
  intros (u & entity & req0 & req' & _ & _ & _ & _ & Hct & _ & _ & Hreq)
    %newRequest_returns_request.
  destruct adm; [destruct Hreq as [token ->] | subst req]; [| exact Hct].
  cbn [Header_Set Header]. rewrite lookup_insert_ne by discriminate.
  exact Hct.
Qed.

(** X12: without the admin flag, the Authorization header of a returned
    request is the caller's hint, as given, and is absent when the hint
    is empty. *)
Theorem request_authorization_hint c method path body h req :
  nr_outcome (newRequest G c method path body h false)
  = Returns (Some req, None) →
  Header req !! "Authorization"
  = (if String.eqb (authorization h) "" then None
     else Some (authorization h)).
Proof.
  intros (u & entity & req0 & req' & _ & _ & _ & _ & _ & Hauth & _ & ->)
    %newRequest_returns_request.
  exact Hauth.
Qed.

(** X13: a returned request carries no header other than Content-Type
    and Authorization, with or without the admin flag. *)
Theorem request_has_no_other_header c method path body h adm req k :
  nr_outcome (newRequest G c method path body h adm)
  = Returns (Some req, None) →
  k ≠ "Content-Type" → k ≠ "Authorization" →
  Header req !! k = None.
Proof.
  intros (u & entity & req0 & req' & _ & _ & _ & _ & _ & _ & Hk & Hreq)
    %newRequest_returns_request Hk1 Hk2.
  destruct adm; [destruct Hreq as [token ->] | subst req]; [| auto].
  cbn [Header_Set Header]. rewrite lookup_insert_ne by congruence. auto.
Qed.

(** X14: the entity of a returned request outside the JSON branch.
    Without a body there is none; with a body under the form-urlencoded
    hint it is the form encoding of the body, and the content type is
    that hint. *)
Theorem request_entity_form_or_none c method path body h adm req :
  nr_outcome (newRequest G c method path body h adm)
  = Returns (Some req, None) →
  match body with
  | None => req_Body req = None
  | Some b =>
      contentType h = formEncoded →
      query_Values b = inl (default "" (req_Body req))
      ∧ req_Body req ≠ None
      ∧ Header req !! "Content-Type" = Some formEncoded
  end.
Proof.
  intros Hout.
  pose proof (request_content_type _ _ _ _ _ _ _ Hout) as Hct.
  apply newRequest_returns_request in Hout
    as (u & entity & req0 & req' & _ & He & _ & Hb & _ & _ & _ & Hreq).
  assert (Hbody : req_Body req = entity)
    by (destruct adm; [destruct Hreq as [token ->] | subst req]; exact Hb).
  rewrite Hbody. destruct body as [b|]; [| exact He].
  intros Hform. rewrite Hform in He, Hct.
  change (formEncoded =? formEncoded)%string with true in He.
  destruct He as [Hq Hne]. split_and!; [exact Hq | exact Hne | exact Hct].
Qed.

(** X15: an admin-flagged call returns the request that the same call
    without the flag returns, with the Authorization header replaced by
    the bearer token; method, URL, entity and content type are the
    same. *)
Theorem admin_request_extends_plain_request c method path body h req0 :
  nr_outcome (newRequest G c method path body h false)
  = Returns (Some req0, None) →
  ∃ g,
    nr_grants (newRequest G c method path body h true) = [g]
    ∧ ∀ token,
        G c context_Background g = Returns (Some token, None) →
        nr_outcome (newRequest G c method path body h true)
        = Returns (Some (Header_Set "Authorization"
                           ("Bearer " ++ AccessToken token) req0), None).
Proof.
  destruct (newRequest_built G c method path body h)
    as [Hrun | [(err & Hrun) | (u & entity & req1 & _ & _ & Hrun)]];
    rewrite !Hrun; try discriminate.
  destruct (newRequest_headers_shape c body h req1)
    as (g & req' & -> & -> & _).
  intros [= <-]. exists g. split; [reflexivity |].
  intros token ->. reflexivity.
Qed.

(** X16: a call without the admin flag never asks for a token, and an
    admin-flagged call asks for none either when the request itself
    cannot be built: it then ends exactly as the call without the flag
    does, be it with an error or with a panic. *)
Theorem no_acquisition_without_request c method path body h :
  nr_grants (newRequest G c method path body h false) = []
  ∧ ((∀ req, nr_outcome (newRequest G c method path body h false)
             ≠ Returns (Some req, None)) →
     newRequest G c method path body h true
     = newRequest G c method path body h false).
Proof.
  destruct (newRequest_built G c method path body h)
    as [Hrun | [(err & Hrun) | (u & entity & req1 & _ & _ & Hrun)]];
    rewrite !Hrun; try (split; reflexivity).
  destruct (newRequest_headers_shape c body h req1)
    as (g & req' & -> & _). split; [reflexivity |].
  intros Hno. exfalso. eapply Hno. reflexivity.
Qed.

(** X17: a request that http.NewRequest rejects, for its method or its
    URL.  Without a body the call returns the error of http.NewRequest.
    With a body that encodes, the error is assigned to a variable of the
    branch and never checked: the call goes on with a nil request and
    panics when it sets the content type. *)
Theorem rejected_request c path b h adm method u err :
  URL_Parse (baseURL c) path = Returns (inl u) →
  (∀ entity, http_NewRequest method u entity = (None, Some err)) →
  newRequest G c method path None h adm = returned [] None (Some err)
  ∧ ((if String.eqb (contentType h) formEncoded
      then ∃ form, query_Values b = inl form
      else ∃ buf, Encoder_Encode false b = inl buf) →
     newRequest G c method path (Some b) h adm = panicked []).
Proof.
  intros Hu Hn. unfold newRequest. rewrite Hu. split.
  - rewrite Hn. reflexivity.
  - destruct (String.eqb (contentType h) formEncoded);
      intros [e ->]; rewrite Hn; apply newRequest_headers_nil.
Qed.

(** X18: a call that returns, returns a request or an error and never
    both, nor neither. *)
Theorem newRequest_request_xor_error c method path body h adm req err :
  nr_outcome (newRequest G c method path body h adm) = Returns (req, err) →
  (req = None ∧ err ≠ None) ∨ (req ≠ None ∧ err = None).
Proof.
  destruct (newRequest_built G c method path body h)
    as [Hrun | [(e & Hrun) | (u & entity & req1 & _ & _ & Hrun)]];
    rewrite Hrun; try discriminate.
  - intros [= <- <-]. auto.
  - destruct (newRequest_headers_shape c body h req1)
      as (g & req' & Hplain & Hadmin & _).
    destruct adm.
    + rewrite Hadmin. cbn [nr_outcome].
      destruct (G c context_Background g) as [[[t|] [e|]]|];
        intros [= <- <-]; auto.
    + rewrite Hplain. intros [= <- <-]. auto.
Qed.

(** X19: every admin-flagged call of a client submits the same grant
    request, whatever the method, the path, the body and the hints. *)
Theorem admin_grant_same_for_every_call c method path body h
    method' path' body' h' g g' :
  g ∈ nr_grants (newRequest G c method path body h true) →
  g' ∈ nr_grants (newRequest G c method' path' body' h' true) →
  g = g'.
Proof.
  intros (_ & Hgt & Hs & Hu & Hp)%newRequest_admin_grant
         (_ & Hgt' & Hs' & Hu' & Hp')%newRequest_admin_grant.
  destruct g, g'. cbn in *. congruence.
Qed.


End BuilderCoverage.

(** ** Client Configuration *)

(** X21: construction never fails, and drops the error of url.Parse: the
    accessor BaseURL returns the parsed base URL, and panics on a client
    whose base URL did not parse. *)
Theorem BaseURL_after_construction d url r off svc conf id secret account
    pass :
  BaseURL (newClient d url r off svc conf id secret account pass)
  = match url_Parse url with
    | inl u => Returns u
    | inr _ => Panics
    end.
Proof.
  unfold BaseURL, newClient. cbn [baseURL].
  destruct (url_Parse url); reflexivity.
Qed.

(** X22: the accessors give back what the constructors were given.  A
    public admin has no client secret, a service account no admin account
    or password, and a new client holds an empty token, not nil. *)
Theorem accessors_after_construction d url r off id secret account pass :
  let service := NewServiceAccount d url r off id secret in
  let confidential :=
    NewConfidentialAdmin d url r off id secret account pass in
  let public := NewPublicAdmin d url r off id account pass in
  (Realm service = r ∧ ClientID service = id ∧ ClientSecret service = secret
   ∧ AdminAccount service = "" ∧ AdminPass service = "")
  ∧ (Realm confidential = r ∧ ClientID confidential = id
     ∧ ClientSecret confidential = secret
     ∧ AdminAccount confidential = account ∧ AdminPass confidential = pass)
  ∧ (Realm public = r ∧ ClientID public = id ∧ ClientSecret public = ""
     ∧ AdminAccount public = account ∧ AdminPass public = pass)
  ∧ AdminOIDC service = Some {| AccessToken := "" |}
  ∧ AdminOIDC confidential = Some {| AccessToken := "" |}
  ∧ AdminOIDC public = Some {| AccessToken := "" |}.
Proof. cbv zeta. split_and!; reflexivity. Qed.

End Coverage.

(** ** The further properties on concrete calls *)

Lemma do_dispatch_error_ctx_done_witness :
  @do reference_GoLib OIDCToken reference_Unmarshal_OIDCToken
    (example_client (refusing_redirect 302 closed_body))
    cancelled_context example_request (target_Writer (buffer "kept"))
  = Returns (None, Some (LibError context_Canceled),
             target_Writer (buffer "kept")).
Proof.
  eapply (@do_dispatch_error_ctx_done reference_GoLib OIDCToken
            reference_Unmarshal_OIDCToken
            (example_client (refusing_redirect 302 closed_body))
            cancelled_context example_request);
    reflexivity.
Defined.

Lemma do_error_status_masks_dispatch_error_witness :
  let resp := {| StatusCode := 302; Body := closed_body;
                 resp_Request := Some example_request |} in
  @do reference_GoLib OIDCToken reference_Unmarshal_OIDCToken
    (example_client (refusing_redirect 302 closed_body))
    context_Background example_request target_nil
  = Returns (None,
             Some (UpstreamError
                     {| ErrorResponse_Response := Some resp; Message := "" |}),
             target_nil).
Proof.
  intros resp.
  destruct (@do_error_status_masks_dispatch_error reference_GoLib OIDCToken
              reference_Unmarshal_OIDCToken
              (example_client (refusing_redirect 302 closed_body))
              context_Background example_request target_nil resp
              (LibError (errors_New "stopped after 10 redirects"))
              eq_refl eq_refl ltac:(simpl; lia))
    as (r & Hdo & Hr).
  rewrite Hdo, Hr; [reflexivity | discriminate].
Defined.

Lemma do_error_response_witness :
  let body :=
    "{" ++ quoted "error_description" ++ ":" ++ quoted "first" ++ ","
        ++ quoted "ERROR_DESCRIPTION" ++ ":" ++ quoted "second" ++ ","
        ++ quoted "error_description" ++ ":7}" in
  let resp := {| StatusCode := 409; Body := bytes body;
                 resp_Request := Some example_request |} in
  ∃ r,
    @do reference_GoLib OIDCToken reference_Unmarshal_OIDCToken
      (example_client (answering 409 (bytes body)))
      context_Background example_request target_nil
    = Returns (None, Some (UpstreamError r), target_nil)
    ∧ Message r = "second"
    ∧ ErrorResponse_Response r = Some resp.
Proof.
  intros body resp.
  destruct (@do_error_response reference_GoLib OIDCToken
              reference_Unmarshal_OIDCToken
              (example_client (answering 409 (bytes body)))
              context_Background example_request target_nil resp
              eq_refl ltac:(simpl; lia))
    as (r & Hdo & _ & Hobj).
  exists r. split; [exact Hdo |].
  destruct (Hobj [("error_description", JString "first");
                  ("ERROR_DESCRIPTION", JString "second");
                  ("error_description", JNumber "7")]
              eq_refl ltac:(vm_compute; reflexivity)) as [_ Hplain].
  apply Hplain. repeat constructor; vm_compute; discriminate.
Defined.

Lemma do_error_body_not_an_object_witness :
  let body := bytes ("[" ++ quoted "not found" ++ "]") in
  let resp := {| StatusCode := 404; Body := body;
                 resp_Request := Some example_request |} in
  @do reference_GoLib OIDCToken reference_Unmarshal_OIDCToken
    (example_client (answering 404 body))
    context_Background example_request target_nil
  = Returns (None,
             Some (UpstreamError
                     {| ErrorResponse_Response := Some resp; Message := "" |}),
             target_nil).
Proof.
  intros body resp.
  apply (@do_error_body_not_an_object reference_GoLib OIDCToken
           reference_Unmarshal_OIDCToken
           (example_client (answering 404 body))
           context_Background example_request target_nil resp
           (JArray [JString "not found"])).
  - reflexivity.
  - simpl. lia.
  - vm_compute. reflexivity.
  - discriminate.
Defined.

Lemma do_streams_body_to_writer_witness :
  let resp := {| StatusCode := 200; Body := bytes "<realm/>";
                 resp_Request := Some example_request |} in
  @do reference_GoLib OIDCToken reference_Unmarshal_OIDCToken
    (example_client (answering 200 (bytes "<realm/>")))
    context_Background example_request (target_Writer (buffer "export: "))
  = Returns (Some {| Response_Response := resp |}, None,
             target_Writer (buffer "export: <realm/>")).
Proof.
  intros resp.
  apply (@do_streams_body_to_writer reference_GoLib OIDCToken
           reference_Unmarshal_OIDCToken
           (example_client (answering 200 (bytes "<realm/>")))
           context_Background example_request resp (buffer "export: ")).
  - reflexivity.
  - simpl. lia.
  - reflexivity.
Defined.

Lemma do_nil_target_ignores_body_witness :
  let body := {| rd_data := "{"; rd_fail := Some "connection reset" |} in
  let resp := {| StatusCode := 201; Body := body;
                 resp_Request := Some example_request |} in
  @do reference_GoLib OIDCToken reference_Unmarshal_OIDCToken
    (example_client (answering 201 body))
    context_Background example_request target_nil
  = Returns (Some {| Response_Response := resp |}, None, target_nil).
Proof.
  intros body resp.
  apply (@do_nil_target_ignores_body reference_GoLib OIDCToken
           reference_Unmarshal_OIDCToken
           (example_client (answering 201 body))
           context_Background example_request resp).
  - reflexivity.
  - simpl. lia.
Defined.

Lemma Error_of_error_status_witness :
  let body := bytes ("{" ++ quoted "error_description" ++ ":"
                         ++ quoted "bad request" ++ "}") in
  ∃ r,
    @do reference_GoLib OIDCToken reference_Unmarshal_OIDCToken
      (example_client (answering 400 body))
      context_Background example_request target_nil
    = Returns (None, Some (UpstreamError r), target_nil)
    ∧ ErrorResponse_Error r
      = Returns ("GET https://sso.example/admin/realms/demo/users: 400 "
                 ++ Message r).
Proof.
  intros body.
  apply (@Error_of_error_status reference_GoLib OIDCToken
           reference_Unmarshal_OIDCToken
           (example_client (answering 400 body))
           context_Background example_request target_nil
           {| StatusCode := 400; Body := body;
              resp_Request := Some example_request |}).
  - reflexivity.
  - simpl. lia.
  - vm_compute. repeat constructor. discriminate.
Defined.

Lemma do_no_response_means_error_witness :
  let v := target_value {| AccessToken := "kept" |} in
  ∃ err,
    @do reference_GoLib OIDCToken reference_Unmarshal_OIDCToken
      (example_client (answering 503 (bytes "")))
      context_Background example_request v
    = Returns (None, err, v)
    ∧ err ≠ None ∧ v = v.
Proof.
  intros v. eexists. split; [vm_compute; reflexivity |].
  apply (@do_no_response_means_error reference_GoLib OIDCToken
           reference_Unmarshal_OIDCToken
           (example_client (answering 503 (bytes "")))
           context_Background example_request v).
  vm_compute. reflexivity.
Defined.

Lemma request_content_type_witness :
  let h := {| authorization := "";
              contentType := "application/merge-patch+json" |} in
  ∃ req,
    nr_outcome (newRequest (H := reference_GoLib) example_acquirer
                  service_client "PATCH" users_path (Some (VBool true)) h true)
    = Returns (Some req, None)
    ∧ Header req !! "Content-Type" = Some "application/merge-patch+json".
Proof.
  intros h. eexists. split; [vm_compute; reflexivity |].
  apply (@request_content_type reference_GoLib example_acquirer
           service_client "PATCH" users_path (Some (VBool true)) h true).
  vm_compute. reflexivity.
Defined.

Lemma request_authorization_hint_witness :
  let h := {| authorization := "Bearer caller-token"; contentType := "" |} in
  ∃ req,
    nr_outcome (newRequest (H := reference_GoLib) example_acquirer
                  (example_client no_network) "GET" users_path None h false)
    = Returns (Some req, None)
    ∧ Header req !! "Authorization" = Some "Bearer caller-token".
Proof.
  intros h. eexists. split; [vm_compute; reflexivity |].
  apply (@request_authorization_hint reference_GoLib example_acquirer
           (example_client no_network) "GET" users_path None h).
  vm_compute. reflexivity.
Defined.

Lemma request_has_no_other_header_witness :
  ∃ req,
    nr_outcome (newRequest (H := reference_GoLib) example_acquirer
                  service_client "POST" users_path (Some (VString "x"))
                  no_hints true)
    = Returns (Some req, None)
    ∧ Header req !! "Accept" = None.
Proof.
  eexists. split; [vm_compute; reflexivity |].
  apply (@request_has_no_other_header reference_GoLib example_acquirer
           service_client "POST" users_path (Some (VString "x")) no_hints
           true).
  - vm_compute. reflexivity.
  - discriminate.
  - discriminate.
Defined.

Lemma request_entity_form_or_none_witness :
  let body := VStruct [("grant_type", VString "password")] in
  ∃ req,
    nr_outcome (newRequest (H := reference_GoLib) example_acquirer
                  (example_client no_network) "POST" users_path (Some body)
                  form_hints false)
    = Returns (Some req, None)
    ∧ reference_query_Values body = inl (default "" (req_Body req))
    ∧ req_Body req ≠ None
    ∧ Header req !! "Content-Type" = Some formEncoded.
Proof.
  intros body. eexists. split; [vm_compute; reflexivity |].
  apply (@request_entity_form_or_none reference_GoLib example_acquirer
           (example_client no_network) "POST" users_path (Some body)
           form_hints false).
  - vm_compute. reflexivity.
  - reflexivity.
Defined.

Lemma admin_request_extends_plain_request_witness :
  let req0 := {| Method := "GET";
                 req_URL := "https://sso.example/admin/realms/demo/users";
                 Header := ∅; req_Body := None;
                 req_ctx := context_Background |} in
  nr_outcome (newRequest (H := reference_GoLib) example_acquirer
                service_client "GET" users_path None no_hints true)
  = Returns (Some (Header_Set "Authorization" "Bearer eyJh.bGci.OiJI" req0),
             None).
Proof.
  intros req0.
  destruct (@admin_request_extends_plain_request reference_GoLib
              example_acquirer service_client "GET" users_path None no_hints
              req0 ltac:(vm_compute; reflexivity))
    as (g & Hg & Htoken).
  apply (Htoken {| AccessToken := "eyJh.bGci.OiJI" |}).
  vm_compute in Hg. injection Hg as <-. vm_compute. reflexivity.
Defined.

Lemma no_acquisition_without_request_witness :
  let path := String (ascii_of_nat 10) "users" in
  newRequest (H := reference_GoLib) example_acquirer service_client
    "GET" path None no_hints true
  = newRequest (H := reference_GoLib) example_acquirer service_client
      "GET" path None no_hints false.
Proof.
  intros path.
  apply (proj2 (@no_acquisition_without_request reference_GoLib
                  example_acquirer service_client "GET" path None no_hints)).
  intros req. vm_compute. discriminate.
Defined.

Lemma rejected_request_witness :
  newRequest (H := reference_GoLib) example_acquirer
    (example_client no_network) "GET users" users_path None no_hints false
  = returned [] None
      (Some (LibError (errors_New "net/http: invalid method")))
  ∧ newRequest (H := reference_GoLib) example_acquirer
      (example_client no_network) "GET users" users_path
      (Some (VString "x")) no_hints false
    = panicked [].
Proof.
  destruct (@rejected_request reference_GoLib example_acquirer
              (example_client no_network) users_path (VString "x") no_hints
              false "GET users" "https://sso.example/admin/realms/demo/users"
              (LibError (errors_New "net/http: invalid method"))
              ltac:(vm_compute; reflexivity) ltac:(intros entity; reflexivity))
    as [Hnone Hbody].
  split; [exact Hnone |].
  apply Hbody. eexists. vm_compute. reflexivity.
Defined.

Lemma newRequest_request_xor_error_witness :
  ∃ err,
    nr_outcome (newRequest (H := reference_GoLib) example_acquirer
                  refused_client "GET" users_path None no_hints true)
    = Returns (None, err)
    ∧ ((@None Request = None ∧ err ≠ None)
       ∨ (@None Request ≠ None ∧ err = None)).
Proof.
  eexists. split; [vm_compute; reflexivity |].
  apply (@newRequest_request_xor_error reference_GoLib example_acquirer
           refused_client "GET" users_path None no_hints true).
  vm_compute. reflexivity.
Defined.

Lemma admin_grant_same_for_every_call_witness :
  let g := {| GrantType := "client_credentials"; Scope := "offline_access";
              Username := ""; Password := "" |} in
  g = g.
Proof.
  intros g.
  apply (@admin_grant_same_for_every_call reference_GoLib example_acquirer
           service_client "GET" users_path None no_hints
           "POST" "realms/demo/clients"
           (Some (VStruct [("name", VString "x")])) form_hints);
    vm_compute; constructor.
Defined.

